(** * lantz.visa: message based drivers on top of the VISA library

    A shallow embedding of [lantz/visa.py]: the dispatcher
    [VisaDriver.__new__], the base class [MessageVisaDriver]
    (life cycle, [raw_recv], [read_block]) and the constructor of
    [SerialVisaDriver], followed by the properties of these functions.

    Python objects are records, a method is a function in a small state
    and exception monad over the driver object, and the pyvisa resource
    (the object behind [self.resource]) is an interface with a concrete
    instance used to run the code on examples. *)

From Stdlib Require Import ZArith List String Ascii QArith Lia Bool.
From Stdlib Require Import Strings.Byte DecimalString.
Import ListNotations.
Open Scope string_scope.
Open Scope list_scope.
Open Scope Z_scope.

(** ** Python values *)

Module Py.

(** The values that reach this module as keyword arguments, class
    attributes and attribute values.  A float is represented by the
    rational it denotes (the only float literal of the module is 1.5). *)
Inductive value : Type :=
| VNone
| VBool (b : bool)
| VInt (z : Z)
| VFloat (q : Q)
| VStr (s : string).

Definition bytes := list byte.

(** [b'...'] literals. *)
Definition b (s : string) : bytes := list_byte_of_string s.

(** Exceptions raised by the module or propagated through it. *)
Inductive exn : Type :=
| ValueError (msg : string)
| Exception (msg : string)
| KeyError (key : value)
| NameError (name : string)
| IndexError
| TypeError
| AttributeError
| VisaIOError (status : Z).

(** Numbers compare by value across bool, int and float. *)
Definition num_of (v : value) : option Q :=
  match v with
  | VBool c => Some (inject_Z (if c then 1 else 0))
  | VInt z => Some (inject_Z z)
  | VFloat q => Some q
  | _ => None
  end.

(** [a == b], as used for dictionary keys. *)
Definition eqb (x y : value) : bool :=
  match num_of x, num_of y with
  | Some p, Some q => Qeq_bool p q
  | None, None =>
      match x, y with
      | VNone, VNone => true
      | VStr s, VStr t => String.eqb s t
      | _, _ => false
      end
  | _, _ => false
  end.

(** Truth value of an object in a condition. *)
Definition truthy (v : value) : bool :=
  match v with
  | VNone => false
  | VBool c => c
  | VInt z => negb (z =? 0)
  | VFloat q => negb (Qeq_bool q 0)
  | VStr s => negb (String.eqb s "")
  end.

(** *** Dictionaries: insertion ordered, keys compared with [==] *)

Definition dict := list (value * value).

Fixpoint lookup (k : value) (d : dict) : option value :=
  match d with
  | [] => None
  | (k', v) :: d' => if eqb k' k then Some v else lookup k d'
  end.

(** [d.get(k, default)] *)
Definition get (d : dict) (k : value) (default : value) : value :=
  match lookup k d with
  | Some v => v
  | None => default
  end.

(** [d[k]] *)
Definition getitem (d : dict) (k : value) : exn + value :=
  match lookup k d with
  | Some v => inr v
  | None => inl (KeyError k)
  end.

(** [d[k] = v]: an existing key keeps its place, a new one goes last. *)
Fixpoint setitem (k v : value) (d : dict) : dict :=
  match d with
  | [] => [(k, v)]
  | (k', v') :: d' =>
      if eqb k' k then (k', v) :: d' else (k', v') :: setitem k v d'
  end.

(** [d.update(other)] *)
Definition update (d other : dict) : dict :=
  fold_left (fun acc kv => setitem (fst kv) (snd kv) acc) other d.

(** *** [int(bytes)], [str(int)], [ord], [startswith] *)

Definition is_space (c : byte) : bool :=
  let n := Byte.to_N c in
  (((9 <=? n) && (n <=? 13)) || (n =? 32))%N.

Definition digit_of (c : byte) : option Z :=
  let n := Z.of_N (Byte.to_N c) in
  if (48 <=? n) && (n <=? 57) then Some (n - 48) else None.

Fixpoint lstrip (l : bytes) : bytes :=
  match l with
  | c :: t => if is_space c then lstrip t else l
  | [] => []
  end.

Definition strip (l : bytes) : bytes := rev (lstrip (rev (lstrip l))).

(** Decimal digits, with single underscores allowed between two digits.
    [after_digit] tells whether the previous character was a digit. *)
Fixpoint int_digits (acc : Z) (after_digit : bool) (l : bytes) : option Z :=
  match l with
  | [] => if after_digit then Some acc else None
  | c :: t =>
      match digit_of c with
      | Some d => int_digits (10 * acc + d) true t
      | None =>
          if Byte.eqb c "_"%byte && after_digit
          then int_digits acc false t
          else None
      end
  end.

(** [int(x)] for a bytes object [x], base 10: surrounding white space,
    an optional sign, then the digits.  The text of the [ValueError] is
    not modelled. *)
Definition int (l : bytes) : exn + Z :=
  let invalid := inl (ValueError "invalid literal for int() with base 10") in
  let s := strip l in
  let signed :=
    match s with
    | c :: t =>
        if Byte.eqb c "+"%byte then int_digits 0 false t
        else if Byte.eqb c "-"%byte
             then option_map Z.opp (int_digits 0 false t)
             else int_digits 0 false s
    | [] => None
    end in
  match signed with
  | Some z => inr z
  | None => invalid
  end.

(** [str(n)] for an integer. *)
Definition str (z : Z) : string := NilZero.string_of_int (Z.to_int z).

(** [ord(s)]: defined on strings of length one only. *)
Definition ord (s : string) : exn + Z :=
  match s with
  | String c EmptyString => inr (Z.of_N (N_of_ascii c))
  | _ => inl TypeError
  end.

(** [s.startswith(p)] *)
Definition startswith (s p : string) : bool := String.prefix p s.

(** [x[0]] on a bytes object: the first byte as an integer. *)
Definition first_byte (x : bytes) : exn + Z :=
  match x with
  | c :: _ => inr (Z.of_N (Byte.to_N c))
  | [] => inl IndexError
  end.

(** [x == y] on bytes objects. *)
Fixpoint bytes_eqb (x y : bytes) : bool :=
  match x, y with
  | [], [] => true
  | c :: x', d :: y' => Byte.eqb c d && bytes_eqb x' y'
  | _, _ => false
  end.

(** [len(x)] *)
Definition len (x : bytes) : Z := Z.of_nat (List.length x).

End Py.

Import Py.

(** ** The pyvisa layer, as the module uses it *)

Module Visa.

(** [pyvisa.constants.VI_SUCCESS_MAX_CNT]: the completion code of a read
    that stopped because the requested count was reached. *)
Definition VI_SUCCESS_MAX_CNT : Z := 0x3FFF0006.

(** A call made by the driver on the layers around it, recorded in the
    order in which it is made. *)
Inductive Call : Type :=
| Open (resource_name : string)
| SetAttribute (key val : value)
| ReadRaw (size : Z)
| Close
| IgnoreEnter (warning : Z)
| IgnoreExit (warning : Z)
| LogDebug (fmt : string).

(** What the module needs from [visa.ResourceManager] and from the
    resource object it opens.  [R] is the state of a resource; every
    method may raise. *)
Class Resource (R : Type) : Type := {
  (** [ResourceManager(library_path).resource_info(name).resource_name] *)
  resource_info : value -> string -> exn + string;
  (** [ResourceManager(library_path).open_resource(name)] *)
  open_resource : value -> string -> exn + R;
  (** [resource.session]: [None] when there is no live handle *)
  session : R -> option Z;
  set_visa_attribute : value -> value -> R -> (exn + unit) * R;
  read_raw : Z -> R -> (exn + bytes) * R;
  close : R -> (exn + unit) * R;
  (** entering and leaving [with resource.ignore_warning(w)] *)
  ignore_enter : Z -> R -> R;
  ignore_exit : Z -> R -> R
}.

(** The attributes that the constructor of the serial class reads from
    the name [Constants]. *)
Record Constants : Type := {
  ASRL_PAR_NONE : Z; ASRL_PAR_EVEN : Z; ASRL_PAR_ODD : Z;
  ASRL_PAR_MARK : Z; ASRL_PAR_SPACE : Z;
  ASRL_STOP_ONE : Z; ASRL_STOP_ONE5 : Z; ASRL_STOP_TWO : Z;
  ASRL_FLOW_NONE : Z; ASRL_FLOW_XON_XOFF : Z;
  ASRL_FLOW_RTS_CTS : Z; ASRL_FLOW_DTR_DSR : Z;
  ASRL_END_NONE : Z; ASRL_END_TERMCHAR : Z
}.

End Visa.

Import Visa.

(** ** Methods: state and exceptions *)

(** How a call ends.  [Diverge] stands for a loop that was still running
    when its fuel ran out. *)
Inductive outcome (A : Type) : Type :=
| Return (a : A)
| Raise (e : exn)
| Diverge.

Arguments Return {A} a.
Arguments Raise {A} e.
Arguments Diverge {A}.

(** A method of an object of type [S]. *)
Definition M (S A : Type) : Type := S -> outcome A * S.

Definition ret {S A} (a : A) : M S A := fun self => (Return a, self).

Definition raise {S A} (e : exn) : M S A := fun self => (Raise e, self).

Definition diverge {S A} : M S A := fun self => (Diverge, self).

Definition bind {S A B} (c : M S A) (k : A -> M S B) : M S B :=
  fun self =>
    match c self with
    | (Return a, self') => k a self'
    | (Raise e, self') => (Raise e, self')
    | (Diverge, self') => (Diverge, self')
    end.

(** The value of an expression that may raise. *)
Definition lift {S A} (x : exn + A) : M S A :=
  match x with
  | inl e => raise e
  | inr a => ret a
  end.

Declare Scope method_scope.
Delimit Scope method_scope with method.
Notation "x <- c ;; k" := (bind c (fun x => k))
  (at level 61, c at next level, right associativity) : method_scope.
Notation "c ;;; k" := (bind c (fun _ => k))
  (at level 61, right associativity) : method_scope.

(** [for x in xs: body(x)] *)
Fixpoint for_each {S A} (xs : list A) (body : A -> M S unit) : M S unit :=
  match xs with
  | [] => ret tt
  | x :: xs' => bind (body x) (fun _ => for_each xs' body)
  end.

(** Sequencing of expressions that may raise, outside any object. *)
Definition and_then {A B} (x : exn + A) (k : A -> exn + B) : exn + B :=
  match x with
  | inl e => inl e
  | inr a => k a
  end.

(** ** The classes of the module *)

(** The concrete classes the dispatcher chooses from. *)
Inductive Variant : Type := GPIB | Serial | TCP | USB.

(** Class attributes of [MessageVisaDriver]; a subclass may override
    them. *)
Record ClassAttributes : Type := {
  RECV_TERMINATION : string;
  SEND_TERMINATION : string;
  ENCODING : string;
  RECV_CHUNK : Z;
  RECV_BUFFER_SIZE : Z
}.

Definition newline : string := String (ascii_of_nat 10) EmptyString.

Definition MessageVisaDriver_attributes : ClassAttributes := {|
  RECV_TERMINATION := newline;
  SEND_TERMINATION := newline;
  ENCODING := "ascii";
  RECV_CHUNK := -1;
  RECV_BUFFER_SIZE := Z.shiftl 1 8
|}.

(** Class attributes added by [SerialVisaDriver]. *)
Record SerialAttributes : Type := {
  BAUDRATE : value;
  BYTESIZE : value;
  PARITY : value;
  STOPBITS : value;
  RTSCTS : value;
  DSRDTR : value;
  XONXOFF : value
}.

Definition SerialVisaDriver_attributes : SerialAttributes := {|
  BAUDRATE := VInt 9600;
  BYTESIZE := VInt 8;
  PARITY := VStr "none";
  STOPBITS := VInt 1;
  RTSCTS := VBool false;
  DSRDTR := VBool false;
  XONXOFF := VBool false
|}.

(** The names [BYTESIZE], [PARITY], [STOPBITS] and [Constants] are bound
    nowhere in the module: the three tables stand inside a string
    literal (lines 23-33) and nothing imports [Constants].  Reading one
    of them raises [NameError]. *)
Definition unbound {A} (name : string) : exn + A := inl (NameError name).

(** [Constants.attribute] *)
Definition Constants_attribute (attribute : Constants -> Z) : exn + Z :=
  and_then (unbound "Constants") (fun namespace => inr (attribute namespace)).

Section Drivers.

Context {R : Type} {visa : Resource R}.

(** A driver object.  [driver_args] and [driver_kwargs] are what
    [Driver.__init__] (outside this module) was given; [library_path]
    stands for [resource_manager]; [calls] is the record of the calls
    made through the object, oldest first. *)
Record Driver : Type := {
  variant : Variant;
  attributes : ClassAttributes;
  driver_args : list value;
  driver_kwargs : dict;
  _init_attributes : dict;
  library_path : value;
  resource : option R;
  resource_name : string;
  calls : list Call
}.

Definition set_resource (r : option R) (self : Driver) : Driver :=
  {| variant := variant self; attributes := attributes self;
     driver_args := driver_args self; driver_kwargs := driver_kwargs self;
     _init_attributes := _init_attributes self;
     library_path := library_path self; resource := r;
     resource_name := resource_name self; calls := calls self |}.

Definition set_init_attributes (d : dict) (self : Driver) : Driver :=
  {| variant := variant self; attributes := attributes self;
     driver_args := driver_args self; driver_kwargs := driver_kwargs self;
     _init_attributes := d;
     library_path := library_path self; resource := resource self;
     resource_name := resource_name self; calls := calls self |}.

Definition record (c : Call) (self : Driver) : Driver :=
  {| variant := variant self; attributes := attributes self;
     driver_args := driver_args self; driver_kwargs := driver_kwargs self;
     _init_attributes := _init_attributes self;
     library_path := library_path self; resource := resource self;
     resource_name := resource_name self; calls := calls self ++ [c] |}.

(** [self.log_debug(fmt, ...)] *)
Definition log_debug (fmt : string) : M Driver unit :=
  fun self => (Return tt, record (LogDebug fmt) self).

(** [self.resource.method(...)]: an [AttributeError] when
    [self.resource] is [None]. *)
Definition on_resource {A} (c : Call) (method : R -> (exn + A) * R)
  : M Driver A :=
  fun self =>
    match resource self with
    | None => (Raise AttributeError, self)
    | Some r =>
        let (res, r') := method r in
        let self' := set_resource (Some r') (record c self) in
        match res with
        | inl e => (Raise e, self')
        | inr a => (Return a, self')
        end
    end.

(** The end of [with self.resource.ignore_warning(w)]: the block is left
    when its body returned or raised, not while it is still running. *)
Definition leave_scope {A} (w : Z) (ended : outcome A * Driver)
  : outcome A * Driver :=
  match ended with
  | (Diverge, self') => (Diverge, self')
  | (o, self') =>
      (o, set_resource (option_map (ignore_exit w) (resource self'))
            (record (IgnoreExit w) self'))
  end.

(** [with self.resource.ignore_warning(w): body] *)
Definition with_ignore_warning {A} (w : Z) (body : M Driver A) : M Driver A :=
  fun self =>
    match resource self with
    | None => (Raise AttributeError, self)
    | Some r =>
        leave_scope w
          (body (set_resource (Some (ignore_enter w r))
                   (record (IgnoreEnter w) self)))
    end.

Local Open Scope method_scope.

(** *** [MessageVisaDriver] *)

(** [MessageVisaDriver.__init__], for an object of class [v]. *)
Definition MessageVisaDriver_init (v : Variant) (attrs : ClassAttributes)
    (resource_name : string) (args : list value) (kwargs : dict) : Driver :=
  {| variant := v; attributes := attrs;
     driver_args := args; driver_kwargs := kwargs;
     _init_attributes := [];
     library_path := get kwargs (VStr "library_path") (VStr "");
     resource := None;
     resource_name := resource_name;
     calls := [LogDebug "Created Instrument {}"] |}.

(** The loop of [raw_recv]; [buffers] is the list built so far. *)
Fixpoint raw_recv_loop (fuel : nat) (buffers : list bytes) : M Driver bytes :=
  match fuel with
  | O => diverge
  | S fuel' =>
      fun self =>
        let size := RECV_BUFFER_SIZE (attributes self) in
        (data <- on_resource (ReadRaw size) (read_raw size) ;;
         let buffers := buffers ++ [data] in
         if len data <? size
         then ret (List.concat buffers)
         else raw_recv_loop fuel' buffers) self
  end.

(** [MessageVisaDriver.raw_recv]; [None] is Python's [None]. *)
Definition raw_recv (fuel : nat) (size : option Z) : M Driver bytes :=
  match size with
  | Some n =>
      if (n =? 0) || (n =? -1)
      then raw_recv_loop fuel []
      else on_resource (ReadRaw n) (read_raw n)
  | None => raw_recv_loop fuel []
  end.

Definition is_open : M Driver bool :=
  fun self =>
    match resource self with
    | None => (Return false, self)
    | Some r =>
        (Return (match session r with Some _ => true | None => false end), self)
    end.

Definition open_session : M Driver unit :=
  fun self =>
    let self' := record (Open (resource_name self)) self in
    match open_resource (library_path self) (resource_name self) with
    | inl e => (Raise e, self')
    | inr r => (Return tt, set_resource (Some r) self')
    end.

Definition initialize : M Driver unit :=
  opened <- is_open ;;
  if negb opened then
    log_debug "Opening {}" ;;;
    open_session ;;;
    (fun self =>
       for_each (_init_attributes self)
         (fun kv => on_resource (SetAttribute (fst kv) (snd kv))
                      (set_visa_attribute (fst kv) (snd kv))) self) ;;;
    log_debug "The session for {} is {}"
  else
    log_debug "{} is already open".

Definition finalize : M Driver unit :=
  log_debug "Closing port {}" ;;;
  on_resource Close close.

(** [MessageVisaDriver.read_block], with the [raw_recv] of the same
    class (the one the GPIB and TCP classes inherit). *)
Definition read_block (fuel : nat) : M Driver bytes :=
  with_ignore_warning VI_SUCCESS_MAX_CNT (
    header <- raw_recv fuel (Some 1) ;;
    (if negb (bytes_eqb header (b "#")) then
       c <- lift (first_byte header) ;;
       raise (Exception ("Unexpected block header: " ++ str c)%string)
     else ret tt) ;;;
    nlength <- (x <- raw_recv fuel (Some 1) ;; lift (int x)) ;;
    length <- (x <- raw_recv fuel (Some nlength) ;; lift (int x)) ;;
    raw_recv fuel (Some length)).

Local Close Scope method_scope.

Notation "'do' x <- e 'in' k" := (and_then e (fun x => k))
  (at level 10, x name, e at level 100, k at level 200, only parsing).

(** *** [SerialVisaDriver] *)

(** [SerialVisaDriver.__init__], with the class attributes [attrs] and
    [serial] of the object's class. *)
Definition SerialVisaDriver_init
    (attrs : ClassAttributes) (serial : SerialAttributes)
    (resource_name : string) (args : list value) (kwargs : dict)
  : exn + Driver :=
  let self := MessageVisaDriver_init Serial attrs resource_name args kwargs in
  let kw : dict := [] in
  let kw := setitem (VStr "ASRL_BAUD")
              (get kwargs (VStr "baudrate") (BAUDRATE serial)) kw in
  do table <- unbound (A := dict) "BYTESIZE" in
  do data_bits <- getitem table (get kw (VStr "bytesize") (BYTESIZE serial)) in
  let kw := setitem (VStr "ASRL_DATA_BITS") data_bits kw in
  do table <- unbound (A := dict) "PARITY" in
  do parity <- getitem table (get kw (VStr "parity") (PARITY serial)) in
  let kw := setitem (VStr "ASRL_PARITY") parity kw in
  do table <- unbound (A := dict) "STOPBITS" in
  do stop_bits <- getitem table (get kw (VStr "stopbits") (STOPBITS serial)) in
  let kw := setitem (VStr "ASRL_STOP_BITS") stop_bits kw in
  do flow <- Constants_attribute ASRL_FLOW_NONE in
  do flow <-
    (if truthy (get kwargs (VStr "rtscts") (RTSCTS serial))
     then do flag <- Constants_attribute ASRL_FLOW_RTS_CTS in inr (Z.lor flow flag)
     else inr flow) in
  do flow <-
    (if truthy (get kwargs (VStr "dsrdtr") (DSRDTR serial))
     then do flag <- Constants_attribute ASRL_FLOW_DTR_DSR in inr (Z.lor flow flag)
     else inr flow) in
  do flow <-
    (if truthy (get kwargs (VStr "xonxoff") (XONXOFF serial))
     then do flag <- Constants_attribute ASRL_FLOW_XON_XOFF in inr (Z.lor flow flag)
     else inr flow) in
  let kw := setitem (VStr "ASRL_FLOW_CNTRL") (VInt flow) kw in
  do kw <-
    (if truthy (VStr (RECV_TERMINATION attrs)) && (1 <? RECV_CHUNK attrs)
     then
       do termchar <- ord (RECV_TERMINATION attrs) in
       let kw := setitem (VStr "TERMCHAR") (VInt termchar) kw in
       do mode <- Constants_attribute ASRL_END_TERMCHAR in
       inr (setitem (VStr "ASRL_END_IN") (VInt mode) kw)
     else
       do mode <- Constants_attribute ASRL_END_NONE in
       inr (setitem (VStr "ASRL_END_IN") (VInt mode) kw)) in
  inr (set_init_attributes (update (_init_attributes self) kw) self).

(** *** The four classes, called as constructors *)

Definition GPIBVisaDriver (resource_name : string) (args : list value)
    (kwargs : dict) : exn + Driver :=
  inr (MessageVisaDriver_init GPIB MessageVisaDriver_attributes
         resource_name args kwargs).

Definition SerialVisaDriver (resource_name : string)
    (args : list value) (kwargs : dict) : exn + Driver :=
  SerialVisaDriver_init MessageVisaDriver_attributes
    SerialVisaDriver_attributes resource_name args kwargs.

Definition TCPVisaDriver (resource_name : string) (args : list value)
    (kwargs : dict) : exn + Driver :=
  inr (MessageVisaDriver_init TCP MessageVisaDriver_attributes
         resource_name args kwargs).

Definition USBVisaDriver (resource_name : string) (args : list value)
    (kwargs : dict) : exn + Driver :=
  inr (MessageVisaDriver_init USB MessageVisaDriver_attributes
         resource_name args kwargs).

(** *** [VisaDriver.__new__] *)

Definition VisaDriver_new (resource_name : string)
    (args : list value) (kwargs : dict) : exn + Driver :=
  let library_path := get kwargs (VStr "library_path") VNone in
  do name <- resource_info library_path resource_name in
  if startswith name "GPIB" then GPIBVisaDriver resource_name args kwargs
  else if startswith name "ASRL" then SerialVisaDriver resource_name args kwargs
  else if startswith name "TCPIP" then TCPVisaDriver resource_name args kwargs
  else if startswith name "USB" then USBVisaDriver resource_name args kwargs
  else inl (ValueError ("Unknown resource type: " ++ name)%string).

End Drivers.

Arguments Driver R : clear implicits.

(** ** A resource to run the code on

    The bytes on their way to the computer arrive in bursts.  A read
    takes bytes from the burst at the head of the queue, at most as many
    as requested; a burst that ends before the requested count gives a
    short read (the time-out or terminator of the real layer).  Once the
    queue is empty the instrument is either silent, and a read times out
    with no byte, or it keeps sending the byte [idle], and every read is
    full. *)

Record Wire : Type := {
  incoming : list bytes;
  idle : option byte;
  handle : option Z;
  settings : dict;
  ignoring : list Z
}.

Definition set_incoming (bursts : list bytes) (w : Wire) : Wire :=
  {| incoming := bursts; idle := idle w; handle := handle w;
     settings := settings w; ignoring := ignoring w |}.

Definition set_handle (h : option Z) (w : Wire) : Wire :=
  {| incoming := incoming w; idle := idle w; handle := h;
     settings := settings w; ignoring := ignoring w |}.

Definition set_settings (d : dict) (w : Wire) : Wire :=
  {| incoming := incoming w; idle := idle w; handle := handle w;
     settings := d; ignoring := ignoring w |}.

Definition set_ignoring (l : list Z) (w : Wire) : Wire :=
  {| incoming := incoming w; idle := idle w; handle := handle w;
     settings := settings w; ignoring := l |}.

(** What stays in the queue when [left] stays of its first burst. *)
Definition remaining (left : bytes) (rest : list bytes) : list bytes :=
  match left with
  | [] => rest
  | _ => left :: rest
  end.

Definition wire_read (size : Z) (w : Wire) : (exn + bytes) * Wire :=
  let n := Z.to_nat size in
  match incoming w with
  | [] =>
      match idle w with
      | None => (inr [], w)
      | Some c => (inr (repeat c n), w)
      end
  | burst :: rest =>
      (inr (firstn n burst), set_incoming (remaining (skipn n burst) rest) w)
  end.

Definition wire_open (bursts : list bytes) : Wire :=
  {| incoming := bursts; idle := None; handle := Some 1; settings := [];
     ignoring := [] |}.

(** A resource that delivers [bursts] and then the byte [c] for ever. *)
Definition wire_streaming (bursts : list bytes) (c : byte) : Wire :=
  {| incoming := bursts; idle := Some c; handle := Some 1; settings := [];
     ignoring := [] |}.

#[export] Instance Wire_resource : Resource Wire := {|
  resource_info := fun _ name => inr name;
  open_resource := fun _ _ => inr (wire_open []);
  session := handle;
  set_visa_attribute := fun k v w =>
    (inr tt, set_settings (setitem k v (settings w)) w);
  read_raw := wire_read;
  close := fun w => (inr tt, set_handle None w);
  ignore_enter := fun c w => set_ignoring (c :: ignoring w) w;
  ignore_exit := fun c w =>
    set_ignoring (filter (fun c' => negb (c' =? c)) (ignoring w)) w
|}.

(** An opened base-class driver whose resource is about to deliver
    [bursts]. *)
Definition listening (bursts : list bytes) : Driver Wire :=
  set_resource (Some (wire_open bursts))
    (MessageVisaDriver_init TCP MessageVisaDriver_attributes
       "TCPIP::192.168.0.2::INSTR" [] []).

(** The same driver on a resource that never falls silent. *)
Definition streaming (bursts : list bytes) (c : byte) : Driver Wire :=
  set_resource (Some (wire_streaming bursts c))
    (MessageVisaDriver_init TCP MessageVisaDriver_attributes
       "TCPIP::192.168.0.2::INSTR" [] []).

(** A driver that was constructed and not opened, with one attribute to
    set when it is. *)
Definition unopened : Driver Wire :=
  set_init_attributes [(VStr "ASRL_BAUD", VInt 9600)]
    (MessageVisaDriver_init Serial MessageVisaDriver_attributes
       "ASRL1::INSTR" [] []).

(** ** The other methods of the module *)

(** [try: body except Exception as e: handler(e)] *)
Definition try_except {S A} (body : M S A) (handler : exn -> M S A) : M S A :=
  fun self =>
    match body self with
    | (Raise e, self') => handler e self'
    | ended => ended
    end.

(** [resource.write_raw], which [raw_send] needs besides the methods of
    [Resource]. *)
Class Writer (R : Type) : Type := {
  write_raw : bytes -> R -> (exn + unit) * R
}.

Section OtherMethods.

Context {R : Type} {visa : Resource R} {writer : Writer R}.

(** [str(e)] for the exceptions that can reach [raw_send]. *)
Variable describe : exn -> string.

(** [self.resource.write_raw(data)] *)
Definition resource_write_raw (data : bytes) : M (Driver R) unit :=
  fun self =>
    match resource self with
    | None => (Raise AttributeError, self)
    | Some r =>
        let (res, r') := write_raw data r in
        let self' := set_resource (Some r') self in
        match res with
        | inl e => (Raise e, self')
        | inr a => (Return a, self')
        end
    end.

(** [MessageVisaDriver.raw_send] *)
Definition raw_send (data : bytes) : M (Driver R) unit :=
  try_except (resource_write_raw data)
    (fun e => raise (Exception (describe e))).

(** [USBVisaDriver.raw_recv]: the size it computes is not used. *)
Definition USBVisaDriver_raw_recv (size : option Z) : M (Driver R) bytes :=
  let size :=
    match size with
    | Some n => if n =? 0 then 1 else n
    | None => 1
    end in
  on_resource (ReadRaw 1) (read_raw 1).

(** [read_block] for a class whose [raw_recv] is [recv]. *)
Definition read_block_with (recv : option Z -> M (Driver R) bytes)
  : M (Driver R) bytes :=
  with_ignore_warning VI_SUCCESS_MAX_CNT (
    bind (recv (Some 1)) (fun header =>
    bind (if negb (bytes_eqb header (b "#")) then
            bind (lift (first_byte header)) (fun c =>
            raise (Exception ("Unexpected block header: " ++ str c)%string))
          else ret tt) (fun _ =>
    bind (bind (recv (Some 1)) (fun x => lift (int x))) (fun nlength =>
    bind (bind (recv (Some nlength)) (fun x => lift (int x))) (fun length =>
    recv (Some length)))))).

(** [read_block] as a USB driver runs it. *)
Definition USBVisaDriver_read_block : M (Driver R) bytes :=
  read_block_with USBVisaDriver_raw_recv.

End OtherMethods.

(** Writing on the wire succeeds while the session handle is live. *)
#[export] Instance Wire_writer : Writer Wire := {|
  write_raw := fun _ w =>
    match handle w with
    | Some _ => (inr tt, w)
    | None => (inl (VisaIOError (-1073807346)), w)
    end
|}.

(** [str(e)] on the examples. *)
Definition describe_example (e : exn) : string :=
  match e with
  | ValueError msg => msg
  | Exception msg => msg
  | KeyError _ => "key"
  | NameError name => ("name '" ++ name ++ "' is not defined")%string
  | IndexError => "index out of range"
  | TypeError => "type error"
  | AttributeError => "'NoneType' object has no attribute 'write_raw'"
  | VisaIOError status => ("VI_ERROR " ++ str status)%string
  end.

(** ** Vocabulary of the properties *)

(** An ASCII decimal digit. *)
Definition is_digit (c : byte) : bool :=
  match digit_of c with Some _ => true | None => false end.

(** The number written by a sequence of decimal digits. *)
Definition decimal (ds : bytes) : Z :=
  fold_left (fun acc c => 10 * acc + (Z.of_N (Byte.to_N c) - 48)) ds 0.

(** The reads of a record of calls, each with its size and whether the
    warning [w] was being ignored when it was made; [active] tells
    whether it is ignored at the start of the record. *)
Fixpoint reads_in_scope (w : Z) (active : bool) (cs : list Call)
  : list (Z * bool) :=
  match cs with
  | [] => []
  | IgnoreEnter w' :: cs' => reads_in_scope w (active || (w' =? w)) cs'
  | IgnoreExit w' :: cs' => reads_in_scope w (active && negb (w' =? w)) cs'
  | ReadRaw n :: cs' => (n, active) :: reads_in_scope w active cs'
  | _ :: cs' => reads_in_scope w active cs'
  end.

(** The calls of a record that open a session. *)
Definition opens (cs : list Call) : list Call :=
  filter (fun c => match c with Open _ => true | _ => false end) cs.

Section Sessions.

Context {R : Type} {visa : Resource R}.

(** [n] reads of [size] bytes in a row: what they yield (nothing when
    one of them raises) and the resource they leave. *)
Fixpoint successive_reads (size : Z) (n : nat) (r : R)
  : option (list bytes) * R :=
  match n with
  | O => (Some [], r)
  | S n' =>
      match read_raw size r with
      | (inl _, r') => (None, r')
      | (inr x, r') =>
          let (xs, r'') := successive_reads size n' r' in
          (option_map (cons x) xs, r'')
      end
  end.

(** The attributes of [attrs] set one after the other on a resource. *)
Fixpoint configure (attrs : dict) (r : R) : (exn + unit) * R :=
  match attrs with
  | [] => (inr tt, r)
  | (k, v) :: attrs' =>
      match set_visa_attribute k v r with
      | (inl e, r') => (inl e, r')
      | (inr _, r') => configure attrs' r'
      end
  end.

End Sessions.

(** A constructor call that gave an object of class [v], built from the
    resource name and the options it was given. *)
Definition constructs {R} (v : Variant) (name : string)
    (args : list value) (kwargs : dict) (result : exn + Driver R) : Prop :=
  exists d, result = inr d /\ variant d = v /\ resource_name d = name /\
            driver_args d = args /\ driver_kwargs d = kwargs.

(** The calls made between two states of a driver. *)
Definition calls_since {R} (before after : Driver R) : list Call :=
  skipn (List.length (calls before)) (calls after).

(** The statement that [read_block] leaves the payload read, the last of
    its reads, outside the scope in which [w] is ignored, and the reads
    before it inside. *)
Definition payload_read_unsuppressed (w : Z) (cs : list Call) : Prop :=
  exists (front : list (Z * bool)) (last : Z * bool),
    reads_in_scope w false cs = front ++ [last] /\
    Forall (fun rd => snd rd = true) front /\ snd last = false.

(** The calls made between [s] and [s'] are reads. *)
Definition only_reads {R} (s s' : Driver R) : Prop :=
  exists sizes, calls s' = calls s ++ map ReadRaw sizes.

(** The prefix of the canonical name that selects a class. *)
Definition prefix_of (v : Variant) : string :=
  match v with
  | GPIB => "GPIB"
  | Serial => "ASRL"
  | TCP => "TCPIP"
  | USB => "USB"
  end.

(** ** A resource that can fail

    A session that answers its reads from a script, each answer being
    bytes or an exception, whatever count is asked for; it cannot open a
    resource without a name and rejects the attribute value [None]. *)

Record Scripted : Type := {
  replies : list (exn + bytes);
  live : bool
}.

Definition scripted_read (s : Scripted) : (exn + bytes) * Scripted :=
  match replies s with
  | [] => (inr [], s)
  | reply :: rest => (reply, {| replies := rest; live := live s |})
  end.

#[export] Instance Scripted_resource : Resource Scripted := {|
  resource_info := fun _ name => inr name;
  open_resource := fun _ name =>
    if String.eqb name "" then inl (VisaIOError (-1073807343))
    else inr {| replies := []; live := true |};
  session := fun s => if live s then Some 1 else None;
  set_visa_attribute := fun _ v s =>
    match v with
    | VNone => (inl (VisaIOError (-1073807331)), s)
    | _ => (inr tt, s)
    end;
  read_raw := fun _ s => scripted_read s;
  close := fun s => (inr tt, {| replies := replies s; live := false |});
  ignore_enter := fun _ s => s;
  ignore_exit := fun _ s => s
|}.

(** An opened base-class driver on a scripted session. *)
Definition scripted (answers : list (exn + bytes)) : Driver Scripted :=
  set_resource (Some {| replies := answers; live := true |})
    (MessageVisaDriver_init GPIB MessageVisaDriver_attributes
       "GPIB0::12::INSTR" [] []).

(** A driver that is not open, with the name and the initial attributes
    given. *)
Definition configured (name : string) (attrs : dict) : Driver Scripted :=
  set_init_attributes attrs
    (MessageVisaDriver_init GPIB MessageVisaDriver_attributes name [] []).

(** * Properties *)

(** ** Bytes and integers *)

Lemma bytes_eqb_eq (x y : bytes) : bytes_eqb x y = true <-> x = y.
Proof.
  revert y; induction x as [|c x IH]; intros [|d y]; simpl;
    try (split; [discriminate | congruence]); [tauto|].
  rewrite andb_true_iff, IH. split.
  - intros [Hc ->]. apply Byte.byte_dec_bl in Hc. now subst.
  - intros [= -> ->]. split; [now apply Byte.byte_dec_lb | reflexivity].
Qed.

Lemma bytes_eqb_neq (x y : bytes) : x <> y -> bytes_eqb x y = false.
Proof.
  intros Hne. destruct (bytes_eqb x y) eqn:E; [|reflexivity].
  now apply bytes_eqb_eq in E.
Qed.

Lemma digit_of_value (c : byte) (n : Z) :
  digit_of c = Some n -> n = Z.of_N (Byte.to_N c) - 48 /\ 0 <= n <= 9.
Proof.
  unfold digit_of. destruct (_ && _) eqn:E; [|discriminate].
  apply andb_true_iff in E. destruct E as [H1 H2].
  apply Z.leb_le in H1, H2. intros [= <-]. lia.
Qed.

Lemma is_digit_not_space (c : byte) : is_digit c = true -> is_space c = false.
Proof.
  unfold is_digit. destruct (digit_of c) as [n|] eqn:E; [|discriminate].
  intros _. apply digit_of_value in E. unfold is_space.
  destruct E as [-> E].
  apply orb_false_iff; split; [apply andb_false_iff; right|];
    [apply N.leb_gt | apply N.eqb_neq]; lia.
Qed.

Lemma int_digits_all (ds : bytes) :
  forallb is_digit ds = true ->
  forall acc after,
    int_digits acc after (ds) =
    match ds with
    | [] => if after then Some acc else None
    | _ => Some (fold_left (fun a c => 10 * a + (Z.of_N (Byte.to_N c) - 48)) ds acc)
    end.
Proof.
  induction ds as [|c ds IH]; intros Hall acc after; [reflexivity|].
  simpl in Hall. apply andb_true_iff in Hall. destruct Hall as [Hc Hds].
  unfold is_digit in Hc. simpl.
  destruct (digit_of c) as [n|] eqn:E; [|discriminate].
  rewrite (IH Hds). apply digit_of_value in E. destruct E as [-> _].
  now destruct ds.
Qed.

Lemma lstrip_digit (c : byte) (l : bytes) :
  is_digit c = true -> lstrip (c :: l) = c :: l.
Proof. intros H. simpl. now rewrite (is_digit_not_space _ H). Qed.

Lemma strip_digits (ds : bytes) : forallb is_digit ds = true -> strip ds = ds.
Proof.
  intros Hall. unfold strip. destruct ds as [|c ds]; [reflexivity|].
  assert (Hc : is_digit c = true) by (simpl in Hall; now apply andb_true_iff in Hall).
  rewrite (lstrip_digit _ _ Hc).
  assert (Hrev : forallb is_digit (rev (c :: ds)) = true).
  { apply forallb_forall. intros x Hx. apply in_rev in Hx.
    now apply (proj1 (forallb_forall _ _) Hall). }
  destruct (rev (c :: ds)) as [|d l] eqn:E.
  - apply (f_equal (@rev byte)) in E. now rewrite rev_involutive in E.
  - simpl in Hrev. apply andb_true_iff in Hrev.
    rewrite (lstrip_digit _ _ (proj1 Hrev)), <- E. apply rev_involutive.
Qed.

(** [int] reads a non-empty sequence of digits as the number it writes. *)
Lemma int_decimal (ds : bytes) :
  ds <> [] -> forallb is_digit ds = true -> int ds = inr (decimal ds).
Proof.
  intros Hne Hall. unfold int. rewrite (strip_digits _ Hall).
  destruct ds as [|c ds]; [congruence|].
  assert (Hc : is_digit c = true) by (simpl in Hall; now apply andb_true_iff in Hall).
  assert (Hplus : Byte.eqb c "+"%byte = false).
  { destruct (Byte.eqb c "+") eqn:E; [|reflexivity].
    apply Byte.byte_dec_bl in E. subst. discriminate. }
  assert (Hminus : Byte.eqb c "-"%byte = false).
  { destruct (Byte.eqb c "-") eqn:E; [|reflexivity].
    apply Byte.byte_dec_bl in E. subst. discriminate. }
  rewrite Hplus, Hminus, (int_digits_all _ Hall). reflexivity.
Qed.

(** ** Steps of a method *)

Section Steps.

Context {R : Type} {visa : Resource R}.

Lemma bind_return {S A B} (c : M S A) (k : A -> M S B) (s s' : S) (a : A) :
  c s = (Return a, s') -> bind c k s = k a s'.
Proof. intros H. unfold bind. now rewrite H. Qed.

Lemma bind_raise {S A B} (c : M S A) (k : A -> M S B) (s s' : S) (e : exn) :
  c s = (Raise e, s') -> bind c k s = (Raise e, s').
Proof. intros H. unfold bind. now rewrite H. Qed.

(** What a method can have done when it returned. *)
Lemma bind_returned {S A B} (c : M S A) (k : A -> M S B) (s s' : S) (y : B) :
  bind c k s = (Return y, s') ->
  exists a s1, c s = (Return a, s1) /\ k a s1 = (Return y, s').
Proof.
  unfold bind. destruct (c s) as [[a| |] s1]; try discriminate.
  intros H. now exists a, s1.
Qed.

Lemma on_resource_ok {A} (c : Call) (method : R -> (exn + A) * R)
    (s : Driver R) (r r' : R) (a : A) :
  resource s = Some r -> method r = (inr a, r') ->
  on_resource c method s = (Return a, set_resource (Some r') (record c s)).
Proof. intros Hr Hm. unfold on_resource. now rewrite Hr, Hm. Qed.

Lemma on_resource_returned {A} (c : Call) (method : R -> (exn + A) * R)
    (s s' : Driver R) (a : A) :
  on_resource c method s = (Return a, s') ->
  exists r r', resource s = Some r /\ method r = (inr a, r') /\
               s' = set_resource (Some r') (record c s).
Proof.
  unfold on_resource. destruct (resource s) as [r|]; [|discriminate].
  destruct (method r) as [[e|a'] r'] eqn:E; [discriminate|].
  intros H. injection H as <- <-. exists r, r'. auto.
Qed.

(** A request for a positive count is one read of that count. *)
Lemma raw_recv_exact (fuel : nat) (n : Z) (s : Driver R) (r r' : R) (x : bytes) :
  n <> 0 -> n <> -1 ->
  resource s = Some r -> read_raw n r = (inr x, r') ->
  raw_recv fuel (Some n) s
  = (Return x, set_resource (Some r') (record (ReadRaw n) s)).
Proof.
  intros H0 H1 Hr Hread. unfold raw_recv.
  apply Z.eqb_neq in H0, H1. rewrite H0, H1. simpl.
  now apply on_resource_ok with (r := r).
Qed.

(** The header of a block, read by three reads: once the header byte,
    the digit count and the length field are read, what is left of
    [read_block] is the payload [raw_recv] and the end of the scope. *)
Lemma read_block_header (fuel : nat) (self : Driver R) (r0 r1 r2 r3 : R)
    (x y : bytes) (nlength length : Z) :
  let w := VI_SUCCESS_MAX_CNT in
  resource self = Some r0 ->
  read_raw 1 (ignore_enter w r0) = (inr (b "#"), r1) ->
  read_raw 1 r1 = (inr x, r2) ->
  int x = inr nlength -> nlength <> 0 -> nlength <> -1 ->
  read_raw nlength r2 = (inr y, r3) ->
  int y = inr length ->
  let s0 := set_resource (Some (ignore_enter w r0)) (record (IgnoreEnter w) self) in
  let s1 := set_resource (Some r1) (record (ReadRaw 1) s0) in
  let s2 := set_resource (Some r2) (record (ReadRaw 1) s1) in
  let s3 := set_resource (Some r3) (record (ReadRaw nlength) s2) in
  read_block fuel self = leave_scope w (raw_recv fuel (Some length) s3).
Proof.
  intros w Hres H1 H2 Hx Hn0 Hn1 H3 Hy s0 s1 s2 s3.
  unfold read_block, with_ignore_warning. rewrite Hres. fold w. fold s0.
  f_equal.
  rewrite (bind_return _ _ _ _ _
             (raw_recv_exact fuel 1 s0 _ _ _ ltac:(lia) ltac:(lia) eq_refl H1)).
  fold s1.
  replace (bytes_eqb (b "#") (b "#")) with true by reflexivity. cbn [negb].
  rewrite (bind_return _ _ s1 s1 tt eq_refl).
  rewrite (bind_return _ _ s1 s2 nlength).
  2:{ rewrite (bind_return _ _ _ _ _
                 (raw_recv_exact fuel 1 s1 _ _ _ ltac:(lia) ltac:(lia) eq_refl H2)).
      fold s2. rewrite Hx. reflexivity. }
  rewrite (bind_return _ _ s2 s3 length).
  2:{ rewrite (bind_return _ _ _ _ _
                 (raw_recv_exact fuel nlength s2 _ _ _ Hn0 Hn1 eq_refl H3)).
      fold s3. rewrite Hy. reflexivity. }
  reflexivity.
Qed.

(** The frame of a block, read by four reads: header, digit count,
    length and payload.  Nothing is asked of the payload. *)
Lemma read_block_frame (fuel : nat) (self : Driver R) (r0 r1 r2 r3 r4 : R)
    (x y payload : bytes) (nlength length : Z) :
  let w := VI_SUCCESS_MAX_CNT in
  resource self = Some r0 ->
  read_raw 1 (ignore_enter w r0) = (inr (b "#"), r1) ->
  read_raw 1 r1 = (inr x, r2) ->
  int x = inr nlength -> nlength <> 0 -> nlength <> -1 ->
  read_raw nlength r2 = (inr y, r3) ->
  int y = inr length -> length <> 0 -> length <> -1 ->
  read_raw length r3 = (inr payload, r4) ->
  fst (read_block fuel self) = Return payload /\
  resource (snd (read_block fuel self)) = Some (ignore_exit w r4) /\
  calls (snd (read_block fuel self))
  = calls self ++ [IgnoreEnter w; ReadRaw 1; ReadRaw 1; ReadRaw nlength;
                   ReadRaw length; IgnoreExit w].
Proof.
  intros w Hres H1 H2 Hx Hn0 Hn1 H3 Hy Hl0 Hl1 H4.
  rewrite (read_block_header fuel self r0 r1 r2 r3 x y nlength length
             Hres H1 H2 Hx Hn0 Hn1 H3 Hy).
  cbv zeta. fold w.
  erewrite raw_recv_exact by (try eassumption; reflexivity).
  cbn. repeat rewrite <- app_assoc. cbn. auto.
Qed.


Lemma calls_since_app (s s' : Driver R) (new : list Call) :
  calls s' = calls s ++ new -> calls_since s s' = new.
Proof.
  intros H. unfold calls_since. rewrite H, skipn_app, skipn_all, Nat.sub_diag.
  reflexivity.
Qed.

End Steps.

(** ** The block protocol *)

Section BlockProtocol.

Context {R : Type} {visa : Resource R}.

(** C4.  When the first byte read is not the character '#',
    [read_block] raises the exception whose message carries that byte
    (as a decimal number), after one read of one byte and no other read;
    the resource is left as that single read left it. *)
Theorem read_block_unexpected_header (fuel : nat) (self : Driver R)
    (r0 r1 : R) (c : byte) :
  let w := VI_SUCCESS_MAX_CNT in
  resource self = Some r0 ->
  read_raw 1 (ignore_enter w r0) = (inr [c], r1) ->
  c <> "#"%byte ->
  fst (read_block fuel self)
  = Raise (Exception ("Unexpected block header: "
                      ++ str (Z.of_N (Byte.to_N c)))%string) /\
  resource (snd (read_block fuel self)) = Some (ignore_exit w r1) /\
  calls (snd (read_block fuel self))
  = calls self ++ [IgnoreEnter w; ReadRaw 1; IgnoreExit w].
Proof.
  intros w Hres Hread Hc.
  unfold read_block, with_ignore_warning. rewrite Hres. fold w.
  set (s0 := set_resource (Some (ignore_enter w r0)) (record (IgnoreEnter w) self)).
  rewrite (bind_return _ _ _ _ _
             (raw_recv_exact fuel 1 s0 _ _ _ ltac:(lia) ltac:(lia) eq_refl Hread)).
  rewrite (bytes_eqb_neq [c] (b "#")) by (intros [= E]; now apply Hc).
  cbn [negb].
  set (s1 := set_resource (Some r1) (record (ReadRaw 1) s0)).
  erewrite bind_raise by reflexivity.
  cbn. repeat rewrite <- app_assoc. cbn. auto.
Qed.

(** C10.  When the first read yields no byte at all, the test on the
    header fails and the message of the protocol error is built from
    [header[0]], which does not exist: the call ends with [IndexError],
    not with the protocol error. *)
Theorem read_block_empty_header (fuel : nat) (self : Driver R) (r0 r1 : R) :
  let w := VI_SUCCESS_MAX_CNT in
  resource self = Some r0 ->
  read_raw 1 (ignore_enter w r0) = (inr [], r1) ->
  fst (read_block fuel self) = Raise IndexError /\
  (forall msg, fst (read_block fuel self) <> Raise (Exception msg)) /\
  calls (snd (read_block fuel self))
  = calls self ++ [IgnoreEnter w; ReadRaw 1; IgnoreExit w].
Proof.
  intros w Hres Hread.
  assert (H : read_block fuel self
              = (Raise IndexError,
                 set_resource (Some (ignore_exit w r1))
                   (record (IgnoreExit w)
                      (set_resource (Some r1)
                         (record (ReadRaw 1)
                            (set_resource (Some (ignore_enter w r0))
                               (record (IgnoreEnter w) self))))))).
  { unfold read_block, with_ignore_warning. rewrite Hres. fold w.
    set (s0 := set_resource (Some (ignore_enter w r0)) (record (IgnoreEnter w) self)).
    rewrite (bind_return _ _ _ _ _
               (raw_recv_exact fuel 1 s0 _ _ _ ltac:(lia) ltac:(lia) eq_refl Hread)).
    reflexivity. }
  rewrite H. cbn. repeat rewrite <- app_assoc. cbn.
  split; [reflexivity|]. split; [discriminate | reflexivity].
Qed.

(** C3.  On a header that is well formed, with a declared length other
    than 0 and -1, [read_block] returns what the one read of that many
    bytes yields, whatever its length: the payload is not compared with
    the declared length, so a read that times out with fewer bytes
    gives these bytes, returned without an error. *)
Theorem read_block_returns_what_was_read (fuel : nat) (self : Driver R)
    (r0 r1 r2 r3 r4 : R) (x y payload : bytes) (nlength length : Z) :
  let w := VI_SUCCESS_MAX_CNT in
  resource self = Some r0 ->
  read_raw 1 (ignore_enter w r0) = (inr (b "#"), r1) ->
  read_raw 1 r1 = (inr x, r2) ->
  int x = inr nlength -> nlength <> 0 -> nlength <> -1 ->
  read_raw nlength r2 = (inr y, r3) ->
  int y = inr length -> length <> 0 -> length <> -1 ->
  read_raw length r3 = (inr payload, r4) ->
  fst (read_block fuel self) = Return payload /\
  resource (snd (read_block fuel self)) = Some (ignore_exit w r4) /\
  calls_since self (snd (read_block fuel self))
  = [IgnoreEnter w; ReadRaw 1; ReadRaw 1; ReadRaw nlength; ReadRaw length;
     IgnoreExit w].
Proof.
  intros w Hres H1 H2 Hx Hn0 Hn1 H3 Hy Hl0 Hl1 H4.
  destruct (read_block_frame fuel self r0 r1 r2 r3 r4 x y payload nlength
              length Hres H1 H2 Hx Hn0 Hn1 H3 Hy Hl0 Hl1 H4)
    as (Hout & Hend & Hcalls).
  split; [exact Hout|]. split; [exact Hend|]. now apply calls_since_app.
Qed.

(** C8.  The warning is ignored during all four reads of a block: the
    header byte, the digit count, the length field and the payload.  The
    statement that ends the [with] block is the [return] of the payload
    read, so the scope is left only after that read. *)
Theorem read_block_ignores_during_payload (fuel : nat) (self : Driver R)
    (r0 r1 r2 r3 r4 : R) (x y payload : bytes) (nlength length : Z) :
  let w := VI_SUCCESS_MAX_CNT in
  resource self = Some r0 ->
  read_raw 1 (ignore_enter w r0) = (inr (b "#"), r1) ->
  read_raw 1 r1 = (inr x, r2) ->
  int x = inr nlength -> nlength <> 0 -> nlength <> -1 ->
  read_raw nlength r2 = (inr y, r3) ->
  int y = inr length -> length <> 0 -> length <> -1 ->
  read_raw length r3 = (inr payload, r4) ->
  reads_in_scope w false (calls_since self (snd (read_block fuel self)))
  = [(1, true); (1, true); (nlength, true); (length, true)].
Proof.
  intros w Hres H1 H2 Hx Hn0 Hn1 H3 Hy Hl0 Hl1 H4.
  destruct (read_block_frame fuel self r0 r1 r2 r3 r4 x y payload nlength
              length Hres H1 H2 Hx Hn0 Hn1 H3 Hy Hl0 Hl1 H4) as (_ & _ & Hcalls).
  rewrite (calls_since_app _ _ _ Hcalls). reflexivity.
Qed.

End BlockProtocol.

(** ** Receiving until a short read *)

Section Drain.

Context {R : Type} {visa : Resource R}.

Lemma successive_reads_step (size : Z) (n : nat) (r r' : R) (l : list bytes) :
  successive_reads size (S n) r = (Some l, r') ->
  exists x r1 xs,
    read_raw size r = (inr x, r1) /\
    successive_reads size n r1 = (Some xs, r') /\ l = x :: xs.
Proof.
  cbn [successive_reads].
  destruct (read_raw size r) as [[e|x] r1]; [discriminate|].
  destruct (successive_reads size n r1) as [[xs|] r''] eqn:E; [|discriminate].
  cbn. intros H. injection H as <- <-. now exists x, r1, xs.
Qed.

(** The loop on a resource whose next reads are all full but the last. *)
Lemma raw_recv_loop_drains (last : bytes) (r' : R) :
  forall (full : list bytes) (fuel : nat) (acc : list bytes)
         (self : Driver R) (r0 : R),
    let size := RECV_BUFFER_SIZE (attributes self) in
    resource self = Some r0 ->
    successive_reads size (S (List.length full)) r0 = (Some (full ++ [last]), r') ->
    Forall (fun x => len x = size) full ->
    len last < size ->
    (List.length full < fuel)%nat ->
    exists self',
      raw_recv_loop fuel acc self
      = (Return (List.concat (acc ++ full ++ [last])), self') /\
      resource self' = Some r' /\
      calls self' = calls self ++ repeat (ReadRaw size) (S (List.length full)).
Proof.
  induction full as [|x0 full IH]; intros fuel acc self r0 size Hres Hreads Hfull Hlast Hfuel;
    (destruct fuel as [|fuel]; [cbn in Hfuel; lia|]);
    apply successive_reads_step in Hreads;
    destruct Hreads as (x & r1 & xs & Hread & Hrest & Hl);
    cbn [raw_recv_loop]; fold size;
    rewrite (bind_return _ _ _ _ _ (on_resource_ok _ _ _ _ _ _ Hres Hread)).
  - cbn in Hrest. injection Hrest as <- <-. cbn in Hl. injection Hl as <-.
    apply Z.ltb_lt in Hlast. rewrite Hlast.
    eexists. split; [reflexivity|]. split; reflexivity.
  - cbn in Hl. injection Hl as <- <-.
    inversion Hfull as [|? ? Hx Hfull']; subst.
    assert (Hge : (len x0 <? size) = false) by (apply Z.ltb_ge; lia).
    rewrite Hge.
    set (self1 := set_resource (Some r1) (record (ReadRaw size) self)).
    destruct (IH fuel (acc ++ [x0]) self1 r1 eq_refl Hrest Hfull' Hlast
                ltac:(cbn in Hfuel; lia)) as (self' & Hrun & Hres' & Hcalls).
    exists self'. rewrite Hrun, <- app_assoc. split; [reflexivity|].
    split; [assumption|]. rewrite Hcalls. cbn. now rewrite <- app_assoc.
Qed.

(** C5.  In drain mode (size [None], 0 or -1), on a resource whose next
    reads of the buffer size yield buffers of exactly that size followed
    by a first shorter one, [raw_recv] makes exactly these reads and
    returns the buffers joined in order.  The buffer size of the class
    is 256. *)
Theorem raw_recv_drain_mode (fuel : nat) (size : option Z) (self : Driver R)
    (r0 r' : R) (full : list bytes) (last : bytes) :
  let buffer_size := RECV_BUFFER_SIZE (attributes self) in
  let n := S (List.length full) in
  size = None \/ size = Some 0 \/ size = Some (-1) ->
  resource self = Some r0 ->
  successive_reads buffer_size n r0 = (Some (full ++ [last]), r') ->
  Forall (fun x => len x = buffer_size) full ->
  len last < buffer_size ->
  (n <= fuel)%nat ->
  (fst (raw_recv fuel size self) = Return (List.concat (full ++ [last])) /\
   resource (snd (raw_recv fuel size self)) = Some r' /\
   calls_since self (snd (raw_recv fuel size self))
   = repeat (ReadRaw buffer_size) n) /\
  RECV_BUFFER_SIZE MessageVisaDriver_attributes = 256.
Proof.
  intros buffer_size n Hsize Hres Hreads Hfull Hlast Hfuel.
  split; [|reflexivity].
  destruct (raw_recv_loop_drains last r' full fuel [] self r0 Hres Hreads
              Hfull Hlast Hfuel) as (self' & Hrun & Hres' & Hcalls).
  assert (E : raw_recv fuel size self = raw_recv_loop fuel [] self)
    by (destruct Hsize as [->|[->| ->]]; reflexivity).
  rewrite E, Hrun. cbn [fst snd]. split; [reflexivity|]. split; [assumption|].
  now apply calls_since_app.
Qed.

End Drain.

(** ** Opening and closing *)

Section LifeCycle.

Context {R : Type} {visa : Resource R}.

Lemma for_each_configure (attrs : dict) :
  forall (s : Driver R) (r r' : R),
    resource s = Some r ->
    configure attrs r = (inr tt, r') ->
    exists s',
      for_each attrs
        (fun kv => on_resource (SetAttribute (fst kv) (snd kv))
                     (set_visa_attribute (fst kv) (snd kv))) s
      = (Return tt, s') /\
      resource s' = Some r' /\
      calls s' = calls s
                 ++ map (fun kv => SetAttribute (fst kv) (snd kv)) attrs.
Proof.
  induction attrs as [|[k v] attrs IH]; intros s r r' Hres Hconf.
  - cbn in Hconf. injection Hconf as <-. exists s. cbn.
    rewrite app_nil_r. auto.
  - cbn [configure] in Hconf.
    destruct (set_visa_attribute k v r) as [[e|[]] r1] eqn:Hset; [discriminate|].
    cbn [for_each fst snd].
    rewrite (bind_return _ _ _ _ _ (on_resource_ok _ _ _ _ _ _ Hres Hset)).
    destruct (IH (set_resource (Some r1) (record (SetAttribute k v) s)) r1 r'
                eq_refl Hconf) as (s' & Hrun & Hres' & Hcalls).
    exists s'. split; [assumption|]. split; [assumption|].
    rewrite Hcalls. cbn. now rewrite <- app_assoc.
Qed.

Lemma opens_settings (attrs : dict) :
  opens (map (fun kv => SetAttribute (fst kv) (snd kv)) attrs) = [].
Proof. induction attrs as [|kv l IH]; [reflexivity | exact IH]. Qed.

(** C9.  A driver without a resource is not open.  When opening the
    resource and setting the initial attributes succeed and leave a live
    session handle, the driver is open after [initialize]; a second
    [initialize] then only writes a diagnostic: it opens nothing, sets
    no attribute and leaves the resource as it is, so that the two calls
    together open the session once.  When [close] drops the handle, the
    driver is not open after [finalize]. *)
Theorem initialize_finalize_life_cycle (self : Driver R) (r0 r1 r2 : R) (h : Z) :
  resource self = None ->
  open_resource (library_path self) (resource_name self) = inr r0 ->
  configure (_init_attributes self) r0 = (inr tt, r1) ->
  session r1 = Some h ->
  close r1 = (inr tt, r2) ->
  session r2 = None ->
  let once := snd (initialize self) in
  let twice := snd (initialize once) in
  fst (is_open self) = Return false /\
  fst (initialize self) = Return tt /\
  fst (is_open once) = Return true /\
  fst (initialize once) = Return tt /\
  fst (is_open twice) = Return true /\
  resource twice = resource once /\
  calls_since once twice = [LogDebug "{} is already open"] /\
  opens (calls_since self twice) = [Open (resource_name self)] /\
  fst (finalize once) = Return tt /\
  fst (is_open (snd (finalize once))) = Return false /\
  fst (finalize twice) = Return tt /\
  fst (is_open (snd (finalize twice))) = Return false.
Proof.
  intros Hnone Hopen Hconf Hlive Hclose Hclosed.
  set (s0 := record (LogDebug "Opening {}") self).
  set (s1 := set_resource (Some r0) (record (Open (resource_name self)) s0)).
  destruct (for_each_configure (_init_attributes self) s1 r0 r1 eq_refl Hconf)
    as (s2 & Hrun & Hres2 & Hcalls2).
  assert (Hinit : initialize self
                  = (Return tt, record (LogDebug "The session for {} is {}") s2)).
  { unfold initialize, bind, is_open, log_debug, open_session.
    rewrite Hnone. cbn [negb]. fold s0.
    change (library_path s0) with (library_path self).
    change (resource_name s0) with (resource_name self).
    rewrite Hopen. fold s1.
    change (_init_attributes s1) with (_init_attributes self).
    rewrite Hrun. reflexivity. }
  set (once := record (LogDebug "The session for {} is {}") s2) in *.
  assert (Hres1 : resource once = Some r1) by exact Hres2.
  assert (Hcalls1 : calls once
                    = calls self
                      ++ [LogDebug "Opening {}"; Open (resource_name self)]
                      ++ map (fun kv => SetAttribute (fst kv) (snd kv))
                           (_init_attributes self)
                      ++ [LogDebug "The session for {} is {}"]).
  { subst once. cbn. rewrite Hcalls2. cbn. repeat rewrite <- app_assoc.
    reflexivity. }
  clearbody once.
  assert (Hagain : initialize once
                   = (Return tt, record (LogDebug "{} is already open") once)).
  { unfold initialize, bind, is_open, log_debug. rewrite Hres1, Hlive. reflexivity. }
  assert (Hfin : forall s, resource s = Some r1 ->
            fst (finalize s) = Return tt /\
            fst (is_open (snd (finalize s))) = Return false).
  { intros s Hs. unfold finalize, bind, log_debug, on_resource, is_open. cbn.
    rewrite Hs, Hclose. cbn. rewrite Hclosed. auto. }
  cbv zeta. rewrite Hinit. cbn [fst snd]. rewrite Hagain. cbn [fst snd].
  split; [unfold is_open; now rewrite Hnone|]. split; [reflexivity|].
  split; [unfold is_open; now rewrite Hres1, Hlive|]. split; [reflexivity|].
  split; [unfold is_open; cbn; now rewrite Hres1, Hlive|].
  split; [reflexivity|].
  split; [now apply calls_since_app|].
  split.
  - rewrite (calls_since_app self _
               ([LogDebug "Opening {}"; Open (resource_name self)]
                ++ map (fun kv => SetAttribute (fst kv) (snd kv))
                     (_init_attributes self)
                ++ [LogDebug "The session for {} is {}";
                    LogDebug "{} is already open"])).
    + unfold opens. cbn. rewrite filter_app. cbn. rewrite app_nil_r.
      f_equal. apply opens_settings.
    + cbn. rewrite Hcalls1. repeat (rewrite <- app_assoc; cbn). reflexivity.
  - destruct (Hfin once Hres1) as [F1 F2].
    destruct (Hfin (record (LogDebug "{} is already open") once) Hres1) as [F3 F4].
    auto.
Qed.

End LifeCycle.

(** ** Construction *)

Section Construction.

Context {R : Type} {visa : Resource R}.

Lemma startswith_head (c : ascii) (p s : string) :
  startswith s (String c p) = true -> exists s', s = String c s'.
Proof.
  unfold startswith. destruct s as [|a s']; cbn; [discriminate|].
  destruct (ascii_dec c a) as [->|]; [|discriminate]. now exists s'.
Qed.

(** The constructor of the serial class reaches line 191 and no
    further: [BYTESIZE] is read before anything else of that line. *)
Lemma SerialVisaDriver_init_unbound (attrs : ClassAttributes)
    (serial : SerialAttributes) (rn : string) (args : list value)
    (kwargs : dict) :
  SerialVisaDriver_init (R := R) attrs serial rn args kwargs
  = inl (NameError "BYTESIZE").
Proof. reflexivity. Qed.

(** C1 (what the code does).  The dispatcher looks at the canonical name
    of the resource.  A name that starts with GPIB, TCPIP or USB gives
    the call of the GPIB, TCP or USB class with the resource name and
    the options as received, and that call returns an object of this
    class; any name that starts with none of the four prefixes gives the
    error for an unknown resource type and no object.  A name that
    starts with ASRL gives the call of the serial class with the
    resource name and the options as received, but that call raises
    [NameError] and the dispatcher returns no serial driver. *)
Theorem VisaDriver_new_dispatch (rn : string)
    (args : list value) (kwargs : dict) (name : string) :
  resource_info (get kwargs (VStr "library_path") VNone) rn = inr name ->
  let result : exn + Driver R := VisaDriver_new rn args kwargs in
  (startswith name "GPIB" = true ->
   result = GPIBVisaDriver rn args kwargs /\
   constructs GPIB rn args kwargs result) /\
  (startswith name "ASRL" = true ->
   result = SerialVisaDriver rn args kwargs /\
   result = inl (NameError "BYTESIZE")) /\
  (startswith name "TCPIP" = true ->
   result = TCPVisaDriver rn args kwargs /\
   constructs TCP rn args kwargs result) /\
  (startswith name "USB" = true ->
   result = USBVisaDriver rn args kwargs /\
   constructs USB rn args kwargs result) /\
  (startswith name "GPIB" = false -> startswith name "ASRL" = false ->
   startswith name "TCPIP" = false -> startswith name "USB" = false ->
   result = inl (ValueError ("Unknown resource type: " ++ name)%string)).
Proof.
  intros Hinfo result. subst result. unfold VisaDriver_new, and_then.
  rewrite Hinfo.
  split; [|split; [|split; [|split]]].
  - intros ->. split; [reflexivity|].
    unfold GPIBVisaDriver. eexists. split; [reflexivity|]. cbn. auto.
  - intros H. rewrite H. destruct (startswith_head _ _ _ H) as [s' ->].
    split; [reflexivity|]. apply SerialVisaDriver_init_unbound.
  - intros H. rewrite H. destruct (startswith_head _ _ _ H) as [s' ->].
    split; [reflexivity|].
    unfold TCPVisaDriver. eexists. split; [reflexivity|]. cbn. auto.
  - intros H. rewrite H. destruct (startswith_head _ _ _ H) as [s' ->].
    split; [reflexivity|].
    unfold USBVisaDriver. eexists. split; [reflexivity|]. cbn. auto.
  - intros -> -> -> ->. reflexivity.
Qed.

(** C6 (what the code does).  The constructor of the serial class builds
    no configuration: for every class and every options of the caller
    it raises [NameError] at its first use of a lookup table, with
    valid settings (8 data bits, even parity, 2 stop bits) as well as
    with 9 data bits. *)
Theorem SerialVisaDriver_raises_NameError (attrs : ClassAttributes)
    (serial : SerialAttributes) (rn : string) (args : list value)
    (kwargs : dict) :
  SerialVisaDriver_init (R := R) attrs serial rn args kwargs
  = inl (NameError "BYTESIZE") /\
  SerialVisaDriver (R := R) rn args
    [(VStr "bytesize", VInt 8); (VStr "parity", VStr "even");
     (VStr "stopbits", VInt 2)]
  = inl (NameError "BYTESIZE") /\
  SerialVisaDriver (R := R) rn args [(VStr "bytesize", VInt 9)]
  = inl (NameError "BYTESIZE").
Proof.
  split; [apply SerialVisaDriver_init_unbound|].
  split; apply SerialVisaDriver_init_unbound.
Qed.


End Construction.

(** ** Blocks on the wire *)

Section OnTheWire.

Lemma wire_read_prefix (n : Z) (w : Wire) (x y : bytes) (rest : list bytes) :
  incoming w = (x ++ y) :: rest -> len x = n ->
  wire_read n w = (inr x, set_incoming (remaining y rest) w).
Proof.
  intros Hin Hlen. unfold wire_read. rewrite Hin.
  assert (E : Z.to_nat n = List.length x) by (unfold len in Hlen; lia).
  rewrite E, firstn_app, skipn_app, firstn_all, skipn_all, Nat.sub_diag.
  cbn. now rewrite app_nil_r.
Qed.

Lemma remaining_nonempty (x y : bytes) (rest : list bytes) :
  1 <= len x -> remaining (x ++ y) rest = (x ++ y) :: rest.
Proof. destruct x; cbn; [lia | reflexivity]. Qed.

Lemma int_digit (d : byte) (n : Z) : digit_of d = Some n -> int [d] = inr n.
Proof.
  intros H. rewrite int_decimal.
  - apply digit_of_value in H. destruct H as [-> _]. reflexivity.
  - discriminate.
  - cbn. unfold is_digit. now rewrite H.
Qed.

(** Draining a resource that fills every buffer does not end. *)
Lemma raw_recv_loop_streaming (fuel : nat) :
  forall (acc : list bytes) (s : Driver Wire) (w : Wire) (c : byte),
    resource s = Some w -> incoming w = [] -> idle w = Some c ->
    0 <= RECV_BUFFER_SIZE (attributes s) ->
    fst (raw_recv_loop fuel acc s) = Diverge.
Proof.
  induction fuel as [|fuel IH]; intros acc s w c Hres Hin Hidle Hsize;
    [reflexivity|].
  cbn [raw_recv_loop].
  set (size := RECV_BUFFER_SIZE (attributes s)) in *.
  assert (Hread : read_raw size w = (inr (repeat c (Z.to_nat size)), w)).
  { cbn. unfold wire_read. now rewrite Hin, Hidle. }
  rewrite (bind_return _ _ _ _ _ (on_resource_ok _ _ _ _ _ _ Hres Hread)).
  assert (Hfull : (len (repeat c (Z.to_nat size)) <? size) = false).
  { apply Z.ltb_ge. unfold len. rewrite repeat_length. lia. }
  rewrite Hfull.
  now apply (IH _ _ w c).
Qed.

(** A block at the head of the stream, read by [read_block]. *)
Lemma read_block_stream (fuel : nat) (self : Driver Wire) (w : Wire) (d : byte)
    (ds payload tail : bytes) (more : list bytes) (n : Z) :
  resource self = Some w ->
  incoming w = (b "#" ++ d :: ds ++ payload ++ tail) :: more ->
  digit_of d = Some n -> 1 <= n <= 9 ->
  len ds = n -> forallb is_digit ds = true ->
  1 <= decimal ds ->
  len payload = decimal ds ->
  fst (read_block fuel self) = Return payload /\
  calls_since self (snd (read_block fuel self))
  = [IgnoreEnter VI_SUCCESS_MAX_CNT; ReadRaw 1; ReadRaw 1; ReadRaw n;
     ReadRaw (decimal ds); IgnoreExit VI_SUCCESS_MAX_CNT] /\
  option_map incoming (resource (snd (read_block fuel self)))
  = Some (remaining tail more).
Proof.
  intros Hres Hin Hd Hn Hds Hall Hlen Hpay.
  set (w0 := ignore_enter VI_SUCCESS_MAX_CNT w).
  set (w1 := set_incoming ((d :: ds ++ payload ++ tail) :: more) w0).
  set (w2 := set_incoming ((ds ++ payload ++ tail) :: more) w1).
  set (w3 := set_incoming ((payload ++ tail) :: more) w2).
  set (w4 := set_incoming (remaining tail more) w3).
  assert (Hne : ds <> []) by (intros ->; cbn in Hds; lia).
  destruct (read_block_frame fuel self w w1 w2 w3 w4 [d] ds payload n
              (decimal ds)) as (Hout & Hend & Hcalls);
    try assumption; try lia.
  - exact (wire_read_prefix 1 w0 (b "#") (d :: ds ++ payload ++ tail) more
             Hin eq_refl).
  - change (read_raw 1 w1) with (wire_read 1 w1).
    rewrite (wire_read_prefix 1 w1 [d] (ds ++ payload ++ tail) more
               eq_refl eq_refl).
    rewrite remaining_nonempty by lia. reflexivity.
  - now apply int_digit.
  - change (read_raw n w2) with (wire_read n w2).
    rewrite (wire_read_prefix n w2 ds (payload ++ tail) more eq_refl Hds).
    rewrite remaining_nonempty by lia. reflexivity.
  - now apply int_decimal.
  - exact (wire_read_prefix (decimal ds) w3 payload tail more eq_refl Hpay).
  - split; [assumption|]. split; [now apply calls_since_app|].
    rewrite Hend. reflexivity.
Qed.

(** C2.  On a stream that starts with '#', a digit from 1 to 9, that
    many digits writing a length of at least 1, and at least that many
    bytes of payload, [read_block] returns exactly the payload, in four
    reads, and leaves the bytes after the payload in the stream.  In
    particular '#', '2', '05' followed by any 5 bytes gives these 5
    bytes. *)
Theorem read_block_returns_declared_payload (fuel : nat) (self : Driver Wire)
    (w : Wire) (d : byte) (ds payload tail : bytes) (more : list bytes)
    (n : Z) :
  resource self = Some w ->
  incoming w = (b "#" ++ d :: ds ++ payload ++ tail) :: more ->
  digit_of d = Some n -> 1 <= n <= 9 ->
  len ds = n -> forallb is_digit ds = true ->
  1 <= decimal ds ->
  len payload = decimal ds ->
  (fst (read_block fuel self) = Return payload /\
   calls_since self (snd (read_block fuel self))
   = [IgnoreEnter VI_SUCCESS_MAX_CNT; ReadRaw 1; ReadRaw 1; ReadRaw n;
      ReadRaw (decimal ds); IgnoreExit VI_SUCCESS_MAX_CNT] /\
   option_map incoming (resource (snd (read_block fuel self)))
   = Some (remaining tail more)) /\
  (forall five : bytes,
      len five = 5 ->
      fst (read_block fuel (listening [b "#205" ++ five])) = Return five).
Proof.
  intros Hres Hin Hd Hn Hds Hall Hlen Hpay.
  split; [now apply (read_block_stream fuel self w d ds payload tail more n)|].
  intros five Hfive.
  destruct (read_block_stream fuel (listening [b "#205" ++ five])
              (wire_open [b "#205" ++ five]) "2"%byte (b "05") five [] [] 2)
    as [Hout _].
  - reflexivity.
  - cbn. now rewrite app_nil_r.
  - reflexivity.
  - lia.
  - reflexivity.
  - reflexivity.
  - cbn. lia.
  - exact Hfive.
  - exact Hout.
Qed.

End OnTheWire.

(** ** The properties on examples *)

Lemma VisaDriver_new_dispatch_witness :
  resource_info (R := Wire) (get [] (VStr "library_path") VNone)
    "USB0::0x1AB1::0x0588::INSTR" = inr "USB0::0x1AB1::0x0588::INSTR" /\
  startswith "USB0::0x1AB1::0x0588::INSTR" "USB" = true /\
  constructs (R := Wire) USB "USB0::0x1AB1::0x0588::INSTR" [] []
    (VisaDriver_new "USB0::0x1AB1::0x0588::INSTR" [] []) /\
  startswith "ASRL1::INSTR" "ASRL" = true /\
  VisaDriver_new (R := Wire) "ASRL1::INSTR" [] [(VStr "baudrate", VInt 9600)]
  = inl (NameError "BYTESIZE").
Proof.
  split; [reflexivity|]. split; [reflexivity|].
  destruct (VisaDriver_new_dispatch (visa := Wire_resource)
              "USB0::0x1AB1::0x0588::INSTR" [] []
              "USB0::0x1AB1::0x0588::INSTR" eq_refl)
    as (_ & _ & _ & Husb & _).
  split; [exact (proj2 (Husb eq_refl))|]. split; [reflexivity|].
  destruct (VisaDriver_new_dispatch (visa := Wire_resource)
              "ASRL1::INSTR" [] [(VStr "baudrate", VInt 9600)]
              "ASRL1::INSTR" eq_refl)
    as (_ & Hserial & _).
  exact (proj2 (Hserial eq_refl)).
Defined.

Lemma read_block_returns_declared_payload_witness :
  fst (read_block 0 (listening [b "#205hello"])) = Return (b "hello") /\
  calls_since (listening [b "#205hello"])
    (snd (read_block 0 (listening [b "#205hello"])))
  = [IgnoreEnter VI_SUCCESS_MAX_CNT; ReadRaw 1; ReadRaw 1; ReadRaw 2;
     ReadRaw 5; IgnoreExit VI_SUCCESS_MAX_CNT].
Proof.
  destruct (read_block_returns_declared_payload 0
              (listening [b "#205hello"]) (wire_open [b "#205hello"])
              "2"%byte (b "05") (b "hello") [] [] 2)
    as [(Hout & Hcalls & _) _].
  - reflexivity.
  - reflexivity.
  - reflexivity.
  - lia.
  - reflexivity.
  - reflexivity.
  - vm_compute. discriminate.
  - reflexivity.
  - split; [exact Hout | exact Hcalls].
Defined.

(** A declared length of zero makes the last [raw_recv] a drain: the
    block '#', '1', '0' has an empty payload, and the call returns the
    bytes that follow it; when the instrument goes on filling every
    buffer, the call does not return. *)
Lemma read_block_zero_length_counterexample :
  digit_of "1"%byte = Some 1 /\ len (b "0") = 1 /\
  forallb is_digit (b "0") = true /\ len [] = decimal (b "0") /\
  fst (read_block 1 (listening [b "#" ++ "1"%byte :: b "0" ++ [] ++ b "abc"]))
  = Return (b "abc") /\
  fst (read_block 1 (listening [b "#" ++ "1"%byte :: b "0" ++ [] ++ b "abc"]))
  <> Return [] /\
  (forall fuel : nat,
      fst (read_block fuel (streaming [b "#" ++ "1"%byte :: b "0" ++ []] "x"%byte))
      = Diverge).
Proof.
  repeat (split; [reflexivity|]). split; [vm_compute; discriminate|].
  intros fuel.
  set (w0 := ignore_enter VI_SUCCESS_MAX_CNT
               (wire_streaming [b "#" ++ "1"%byte :: b "0" ++ []] "x"%byte)).
  set (w1 := snd (wire_read 1 w0)).
  set (w2 := snd (wire_read 1 w1)).
  set (w3 := snd (wire_read 1 w2)).
  rewrite (read_block_header (visa := Wire_resource) fuel
             (streaming [b "#" ++ "1"%byte :: b "0" ++ []] "x"%byte)
             (wire_streaming [b "#" ++ "1"%byte :: b "0" ++ []] "x"%byte)
             w1 w2 w3 (b "1") (b "0") 1 0);
    [ | reflexivity | reflexivity | reflexivity | reflexivity | lia | lia
      | reflexivity | reflexivity ].
  cbv zeta.
  match goal with
  | |- context [raw_recv fuel (Some 0) ?s] =>
      change (raw_recv fuel (Some 0) s) with (raw_recv_loop fuel [] s);
      pose proof (raw_recv_loop_streaming fuel [] s w3 "x"%byte) as H;
      destruct (raw_recv_loop fuel [] s) as [o s']
  end.
  cbn [fst] in H. rewrite H; [reflexivity | reflexivity .. | cbn; lia].
Defined.

Lemma read_block_returns_what_was_read_witness :
  int (b "05") = inr 5 /\ len (b "abc") < 5 /\
  fst (read_block 0 (listening [b "#205"; b "abc"])) = Return (b "abc") /\
  calls_since (listening [b "#205"; b "abc"])
    (snd (read_block 0 (listening [b "#205"; b "abc"])))
  = [IgnoreEnter VI_SUCCESS_MAX_CNT; ReadRaw 1; ReadRaw 1; ReadRaw 2; ReadRaw 5;
     IgnoreExit VI_SUCCESS_MAX_CNT].
Proof.
  split; [reflexivity|]. split; [reflexivity|].
  destruct (read_block_returns_what_was_read (visa := Wire_resource) 0
              (listening [b "#205"; b "abc"])
              (wire_open [b "#205"; b "abc"])
              (set_incoming [b "205"; b "abc"]
                 (ignore_enter VI_SUCCESS_MAX_CNT (wire_open [])))
              (set_incoming [b "05"; b "abc"]
                 (ignore_enter VI_SUCCESS_MAX_CNT (wire_open [])))
              (set_incoming [b "abc"]
                 (ignore_enter VI_SUCCESS_MAX_CNT (wire_open [])))
              (ignore_enter VI_SUCCESS_MAX_CNT (wire_open []))
              (b "2") (b "05") (b "abc") 2 5)
    as (Hout & _ & Hcalls);
    [reflexivity | reflexivity | reflexivity | reflexivity | lia | lia
     | reflexivity | reflexivity | lia | lia | reflexivity |].
  split; [exact Hout | exact Hcalls].
Defined.

(** The header announces 5 bytes, the payload read times out after 3:
    the call returns the 3 bytes and raises nothing. *)
Lemma read_block_short_payload_counterexample :
  int (b "05") = inr 5 /\
  fst (read_block 0 (listening [b "#205"; b "abc"])) = Return (b "abc") /\
  ~ (5 <= len (b "abc")).
Proof.
  split; [reflexivity|]. split; [reflexivity|]. vm_compute. intros H.
  now apply H.
Defined.

Lemma read_block_unexpected_header_witness :
  "A"%byte <> "#"%byte /\
  fst (read_block 0 (listening [b "A205hello"]))
  = Raise (Exception "Unexpected block header: 65") /\
  option_map incoming (resource (snd (read_block 0 (listening [b "A205hello"]))))
  = Some [b "205hello"] /\
  calls_since (listening [b "A205hello"])
    (snd (read_block 0 (listening [b "A205hello"])))
  = [IgnoreEnter VI_SUCCESS_MAX_CNT; ReadRaw 1; IgnoreExit VI_SUCCESS_MAX_CNT].
Proof.
  assert (Hne : "A"%byte <> "#"%byte) by discriminate.
  destruct (read_block_unexpected_header (visa := Wire_resource) 0
              (listening [b "A205hello"])
              (wire_open [b "A205hello"])
              (snd (wire_read 1 (ignore_enter VI_SUCCESS_MAX_CNT
                                   (wire_open [b "A205hello"])))) "A"%byte)
    as (Hout & Hres & Hcalls); [reflexivity | reflexivity | exact Hne |].
  split; [exact Hne|]. split; [exact Hout|].
  split; [rewrite Hres; reflexivity|].
  now apply calls_since_app.
Defined.

Lemma read_block_empty_header_witness :
  read_raw 1 (wire_open []) = (inr [], wire_open []) /\
  fst (read_block 0 (listening [])) = Raise IndexError.
Proof.
  split; [reflexivity|].
  destruct (read_block_empty_header (visa := Wire_resource) 0
              (listening []) (wire_open [])
              (ignore_enter VI_SUCCESS_MAX_CNT (wire_open [])))
    as (Hout & _); [reflexivity | reflexivity | exact Hout].
Defined.

Lemma raw_recv_drain_mode_witness :
  (let bursts := [repeat "a"%byte 256; repeat "b"%byte 256; repeat "c"%byte 100] in
   fst (raw_recv 3 (Some (-1)) (listening bursts)) = Return (List.concat bursts) /\
   len (List.concat bursts) = 612 /\
   calls_since (listening bursts) (snd (raw_recv 3 (Some (-1)) (listening bursts)))
   = [ReadRaw 256; ReadRaw 256; ReadRaw 256]) /\
  (fst (raw_recv 1 None (listening [b "0123456789"])) = Return (b "0123456789") /\
   calls_since (listening [b "0123456789"])
     (snd (raw_recv 1 None (listening [b "0123456789"])))
   = [ReadRaw 256]).
Proof.
  split.
  - destruct (raw_recv_drain_mode (visa := Wire_resource) 3 (Some (-1))
                (listening [repeat "a"%byte 256; repeat "b"%byte 256;
                            repeat "c"%byte 100])
                (wire_open [repeat "a"%byte 256; repeat "b"%byte 256;
                            repeat "c"%byte 100])
                (wire_open [])
                [repeat "a"%byte 256; repeat "b"%byte 256]
                (repeat "c"%byte 100))
      as [(Hout & _ & Hcalls) _].
    + right. right. reflexivity.
    + reflexivity.
    + vm_compute. reflexivity.
    + repeat constructor.
    + vm_compute. reflexivity.
    + simpl. lia.
    + cbv zeta. split; [exact Hout|]. split; [reflexivity | exact Hcalls].
  - destruct (raw_recv_drain_mode (visa := Wire_resource) 1 None
                (listening [b "0123456789"]) (wire_open [b "0123456789"])
                (wire_open []) [] (b "0123456789"))
      as [(Hout & _ & Hcalls) _].
    + left. reflexivity.
    + reflexivity.
    + vm_compute. reflexivity.
    + constructor.
    + vm_compute. reflexivity.
    + simpl. lia.
    + split; [exact Hout | exact Hcalls].
Defined.

Lemma read_block_ignores_during_payload_witness :
  reads_in_scope VI_SUCCESS_MAX_CNT false
    (calls_since (listening [b "#205hello"])
       (snd (read_block 0 (listening [b "#205hello"]))))
  = [(1, true); (1, true); (2, true); (5, true)].
Proof.
  apply (read_block_ignores_during_payload (visa := Wire_resource) 0
           (listening [b "#205hello"])
           (wire_open [b "#205hello"])
           (snd (wire_read 1 (ignore_enter VI_SUCCESS_MAX_CNT
                                (wire_open [b "#205hello"]))))
           (set_incoming [b "05hello"] (ignore_enter VI_SUCCESS_MAX_CNT
                                          (wire_open [])))
           (set_incoming [b "hello"] (ignore_enter VI_SUCCESS_MAX_CNT
                                        (wire_open [])))
           (ignore_enter VI_SUCCESS_MAX_CNT (wire_open []))
           (b "2") (b "05") (b "hello") 2 5);
    try reflexivity; lia.
Defined.

(** On the block '#', '2', '05', 'hello' the last read, the one of the
    payload, is made while the warning is ignored. *)
Lemma read_block_scope_counterexample :
  ~ payload_read_unsuppressed VI_SUCCESS_MAX_CNT
      (calls_since (listening [b "#205hello"])
         (snd (read_block 0 (listening [b "#205hello"])))).
Proof.
  intros (front & last & Hreads & _ & Hlast).
  change (reads_in_scope VI_SUCCESS_MAX_CNT false
            (calls_since (listening [b "#205hello"])
               (snd (read_block 0 (listening [b "#205hello"])))))
    with ([(1, true); (1, true); (2, true)] ++ [(5, true)]) in Hreads.
  apply app_inj_tail in Hreads. destruct Hreads as [_ <-]. discriminate Hlast.
Defined.

Lemma initialize_finalize_life_cycle_witness :
  fst (is_open unopened) = Return false /\
  fst (is_open (snd (initialize unopened))) = Return true /\
  calls_since unopened (snd (initialize (snd (initialize unopened))))
  = [LogDebug "Opening {}"; Open "ASRL1::INSTR";
     SetAttribute (VStr "ASRL_BAUD") (VInt 9600);
     LogDebug "The session for {} is {}"; LogDebug "{} is already open"] /\
  opens (calls_since unopened (snd (initialize (snd (initialize unopened)))))
  = [Open "ASRL1::INSTR"] /\
  fst (is_open (snd (finalize (snd (initialize unopened))))) = Return false.
Proof.
  destruct (initialize_finalize_life_cycle (visa := Wire_resource) unopened
              (wire_open [])
              (snd (set_visa_attribute (VStr "ASRL_BAUD") (VInt 9600)
                      (wire_open [])))
              (snd (close (snd (set_visa_attribute (VStr "ASRL_BAUD")
                                  (VInt 9600) (wire_open [])))))
              1)
    as (Hbefore & _ & Hafter & _ & _ & _ & _ & Hopens & _ & Hclosed & _);
    try reflexivity.
  split; [exact Hbefore|]. split; [exact Hafter|].
  split; [reflexivity|]. split; [exact Hopens | exact Hclosed].
Defined.

(** * Further properties *)

(** ** What a method adds to the record of calls *)

Section OnlyReads.

Context {R : Type} {visa : Resource R}.

Lemma only_reads_refl (s : Driver R) : only_reads s s.
Proof. exists []. cbn. now rewrite app_nil_r. Qed.

Lemma only_reads_trans (s1 s2 s3 : Driver R) :
  only_reads s1 s2 -> only_reads s2 s3 -> only_reads s1 s3.
Proof.
  intros [l1 H1] [l2 H2]. exists (l1 ++ l2).
  now rewrite H2, H1, map_app, app_assoc.
Qed.

Lemma bind_only_reads {A B} (c : M (Driver R) A) (k : A -> M (Driver R) B) :
  (forall s, only_reads s (snd (c s))) ->
  (forall a s, only_reads s (snd (k a s))) ->
  forall s, only_reads s (snd (bind c k s)).
Proof.
  intros Hc Hk s. unfold bind. specialize (Hc s).
  destruct (c s) as [[a|e|] s1]; cbn in *; [|assumption..].
  exact (only_reads_trans _ _ _ Hc (Hk a s1)).
Qed.

Lemma lift_only_reads {A} (v : exn + A) (s : Driver R) :
  only_reads s (snd (lift v s)).
Proof. destruct v; apply only_reads_refl. Qed.

Lemma read_only_reads (n : Z) (s : Driver R) :
  only_reads s (snd (on_resource (ReadRaw n) (read_raw n) s)).
Proof.
  unfold on_resource. destruct (resource s) as [r|]; [|apply only_reads_refl].
  destruct (read_raw n r) as [[e|x] r']; exists [n]; reflexivity.
Qed.

Lemma raw_recv_loop_only_reads (fuel : nat) :
  forall (acc : list bytes) (s : Driver R),
    only_reads s (snd (raw_recv_loop fuel acc s)).
Proof.
  induction fuel as [|fuel IH]; intros acc s; [apply only_reads_refl|].
  cbn [raw_recv_loop].
  apply (bind_only_reads
           (on_resource (ReadRaw (RECV_BUFFER_SIZE (attributes s)))
              (read_raw (RECV_BUFFER_SIZE (attributes s))))).
  - apply read_only_reads.
  - intros x s1. destruct (len x <? RECV_BUFFER_SIZE (attributes s)).
    + apply only_reads_refl.
    + apply IH.
Qed.

Lemma raw_recv_only_reads (fuel : nat) (size : option Z) (s : Driver R) :
  only_reads s (snd (raw_recv fuel size s)).
Proof.
  unfold raw_recv. destruct size as [n|].
  - destruct ((n =? 0) || (n =? -1)).
    + apply raw_recv_loop_only_reads.
    + apply read_only_reads.
  - apply raw_recv_loop_only_reads.
Qed.

Lemma USBVisaDriver_raw_recv_only_reads (size : option Z) (s : Driver R) :
  only_reads s (snd (USBVisaDriver_raw_recv size s)).
Proof. apply read_only_reads. Qed.

(** The body of [read_block] only reads, when its [raw_recv] does. *)
Lemma read_block_with_only_reads (recv : option Z -> M (Driver R) bytes)
    (s0 : Driver R) (r : R) :
  (forall size s, only_reads s (snd (recv size s))) ->
  resource s0 = Some r ->
  exists sizes,
    calls_since s0 (snd (read_block_with recv s0))
    = IgnoreEnter VI_SUCCESS_MAX_CNT :: map ReadRaw sizes
      ++ match fst (read_block_with recv s0) with
         | Diverge => []
         | _ => [IgnoreExit VI_SUCCESS_MAX_CNT]
         end.
Proof.
  intros Hrecv Hres. unfold read_block_with, with_ignore_warning.
  rewrite Hres.
  match goal with
  | |- context [leave_scope _ (?body ?s)] =>
      assert (H : only_reads s (snd (body s)));
      [| destruct (body s) as [o s'] ]
  end.
  - apply bind_only_reads; [apply Hrecv|]. intros header s1.
    apply bind_only_reads.
    { intros s2. destruct (negb (bytes_eqb header (b "#")));
        [|apply only_reads_refl].
      apply bind_only_reads; [apply lift_only_reads|].
      intros; apply only_reads_refl. }
    intros _ s2. apply bind_only_reads.
    { apply bind_only_reads; [apply Hrecv | intros; apply lift_only_reads]. }
    intros nlength s3. apply bind_only_reads; [|intros; apply Hrecv].
    apply bind_only_reads; [apply Hrecv | intros; apply lift_only_reads].
  - destruct H as [sizes Hcalls]. exists sizes. cbn in Hcalls.
    apply calls_since_app.
    destruct o; cbn; rewrite Hcalls; repeat (rewrite <- app_assoc; cbn);
      try reflexivity.
    now rewrite app_nil_r.
Qed.

Lemma read_block_with_raw_recv (fuel : nat) :
  read_block_with (raw_recv fuel) = read_block (R := R) fuel.
Proof. reflexivity. Qed.

(** X1.  Whatever the input and however it ends, [read_block] on an
    opened driver makes no call but reads between entering and leaving
    the scope in which the warning is ignored: every read is inside the
    scope, the scope is left when the call returns or raises, and the
    session is neither opened, closed nor configured. *)
Theorem read_block_only_reads_in_scope (fuel : nat) (self : Driver R) (r : R) :
  resource self = Some r ->
  exists sizes,
    calls_since self (snd (read_block fuel self))
    = IgnoreEnter VI_SUCCESS_MAX_CNT :: map ReadRaw sizes
      ++ match fst (read_block fuel self) with
         | Diverge => []
         | _ => [IgnoreExit VI_SUCCESS_MAX_CNT]
         end.
Proof.
  intros Hres. rewrite <- read_block_with_raw_recv.
  apply (read_block_with_only_reads (raw_recv fuel) self r); [|assumption].
  intros size s. apply raw_recv_only_reads.
Qed.

End OnlyReads.

(** ** More on the block protocol *)

Section BlockEdges.

Context {R : Type} {visa : Resource R}.

(** A single byte that is not a digit is not a number. *)
Lemma int_not_a_digit (c : byte) :
  digit_of c = None ->
  int [c] = inl (ValueError "invalid literal for int() with base 10").
Proof.
  intros Hc. unfold int, strip. cbn [lstrip].
  destruct (is_space c) eqn:Hs; [reflexivity|].
  cbn [rev app lstrip]. rewrite Hs. cbn [rev app].
  destruct (Byte.eqb c "+"); [reflexivity|].
  destruct (Byte.eqb c "-"); [reflexivity|].
  cbn [int_digits]. rewrite Hc, andb_false_r. reflexivity.
Qed.

(** X2.  When the byte after '#' is not an ASCII digit, or the read for
    it times out with no byte, [read_block] raises [ValueError] from
    [int], after two reads of one byte; the rest of the stream is not
    read and the scope is left. *)
Theorem read_block_bad_digit_count (fuel : nat) (self : Driver R)
    (r0 r1 r2 : R) (x : bytes) :
  let w := VI_SUCCESS_MAX_CNT in
  resource self = Some r0 ->
  read_raw 1 (ignore_enter w r0) = (inr (b "#"), r1) ->
  read_raw 1 r1 = (inr x, r2) ->
  x = [] \/ (exists c, x = [c] /\ digit_of c = None) ->
  fst (read_block fuel self)
  = Raise (ValueError "invalid literal for int() with base 10") /\
  resource (snd (read_block fuel self)) = Some (ignore_exit w r2) /\
  calls_since self (snd (read_block fuel self))
  = [IgnoreEnter w; ReadRaw 1; ReadRaw 1; IgnoreExit w].
Proof.
  intros w Hres H1 H2 Hx.
  assert (Hint : int x = inl (ValueError "invalid literal for int() with base 10")).
  { destruct Hx as [->|(c & -> & Hc)]; [reflexivity | now apply int_not_a_digit]. }
  set (s0 := set_resource (Some (ignore_enter w r0)) (record (IgnoreEnter w) self)).
  set (s1 := set_resource (Some r1) (record (ReadRaw 1) s0)).
  set (s2 := set_resource (Some r2) (record (ReadRaw 1) s1)).
  assert (Hrun : read_block fuel self
                 = leave_scope w
                     (Raise (ValueError "invalid literal for int() with base 10"),
                      s2)).
  { unfold read_block, with_ignore_warning. rewrite Hres. fold w. fold s0.
    f_equal.
    rewrite (bind_return _ _ _ _ _
               (raw_recv_exact fuel 1 s0 _ _ _ ltac:(lia) ltac:(lia) eq_refl H1)).
    fold s1.
    replace (bytes_eqb (b "#") (b "#")) with true by reflexivity. cbn [negb].
    rewrite (bind_return _ _ s1 s1 tt eq_refl).
    apply bind_raise.
    rewrite (bind_return _ _ _ _ _
               (raw_recv_exact fuel 1 s1 _ _ _ ltac:(lia) ltac:(lia) eq_refl H2)).
    fold s2. rewrite Hint. reflexivity. }
  rewrite Hrun. cbn [leave_scope fst snd]. split; [reflexivity|].
  split; [reflexivity|].
  apply calls_since_app. cbn. repeat (rewrite <- app_assoc; cbn). reflexivity.
Qed.


End BlockEdges.

(** ** Sending, and drivers that were never opened *)

Section Unopened.

Context {R : Type} {visa : Resource R} {writer : Writer R}.

Variable describe : exn -> string.

(** X4.  [raw_send] ends in one of two ways: it returns, or it raises
    the generic [Exception] with the text of the exception that the
    write raised, whose class is lost; on a driver that has no resource
    the text is that of the [AttributeError], and nothing is written. *)
Theorem raw_send_generic_exception (data : bytes) (self : Driver R) :
  (fst (raw_send describe data self) = Return tt \/
   exists e, fst (raw_send describe data self) = Raise (Exception (describe e))) /\
  (forall r e r', resource self = Some r -> write_raw data r = (inl e, r') ->
     raw_send describe data self
     = (Raise (Exception (describe e)), set_resource (Some r') self)) /\
  (resource self = None ->
     raw_send describe data self
     = (Raise (Exception (describe AttributeError)), self)).
Proof.
  unfold raw_send, try_except, resource_write_raw.
  destruct (resource self) as [r|] eqn:Hres.
  - destruct (write_raw data r) as [[e|[]] r'] eqn:Hw.
    + split; [right; now exists e|]. split; [|discriminate].
      intros r1 e1 r1' H1 H2. injection H1 as <-. rewrite Hw in H2.
      now injection H2 as <- <-.
    + split; [now left|]. split; [|discriminate].
      intros r1 e1 r1' H1 H2. injection H1 as <-. rewrite Hw in H2.
      discriminate.
  - split; [right; now exists AttributeError|]. split; [discriminate|].
    reflexivity.
Qed.

(** X5.  On a driver that has no resource, because [initialize] was not
    called or failed to open it, receiving and closing do not open the
    session on demand: [raw_recv], the USB [raw_recv] and [read_block]
    raise [AttributeError] and call nothing, and [finalize] raises it
    after its diagnostic. *)
Theorem unopened_driver_fails (fuel : nat) (size : option Z) (self : Driver R) :
  resource self = None ->
  raw_recv (S fuel) size self = (Raise AttributeError, self) /\
  USBVisaDriver_raw_recv size self = (Raise AttributeError, self) /\
  read_block fuel self = (Raise AttributeError, self) /\
  USBVisaDriver_read_block self = (Raise AttributeError, self) /\
  finalize self
  = (Raise AttributeError, record (LogDebug "Closing port {}") self).
Proof.
  intros Hres.
  assert (Hread : forall n, on_resource (ReadRaw n) (read_raw n) self
                            = (Raise AttributeError, self)).
  { intros n. unfold on_resource. now rewrite Hres. }
  split.
  { unfold raw_recv. destruct size as [n|];
      [destruct ((n =? 0) || (n =? -1))|];
      cbn [raw_recv_loop]; unfold bind; now rewrite ?Hread. }
  split; [apply Hread|].
  split; [unfold read_block, with_ignore_warning; now rewrite Hres|].
  split.
  { unfold USBVisaDriver_read_block, read_block_with, with_ignore_warning.
    now rewrite Hres. }
  unfold finalize, bind, log_debug, on_resource. cbn. now rewrite Hres.
Qed.

End Unopened.

(** ** More on receiving until a short read *)

Section DrainEdges.

Context {R : Type} {visa : Resource R}.

(** X6.  When a read of the drain loop raises, after a number of full
    buffers, [raw_recv] raises the same exception: the buffers received
    before it are not returned. *)
Theorem raw_recv_drain_raises (fuel : nat) (size : option Z) (self : Driver R)
    (r0 r1 r2 : R) (full : list bytes) (e : exn) :
  let buffer_size := RECV_BUFFER_SIZE (attributes self) in
  size = None \/ size = Some 0 \/ size = Some (-1) ->
  resource self = Some r0 ->
  successive_reads buffer_size (List.length full) r0 = (Some full, r1) ->
  Forall (fun x => buffer_size <= len x) full ->
  read_raw buffer_size r1 = (inl e, r2) ->
  (List.length full < fuel)%nat ->
  fst (raw_recv fuel size self) = Raise e /\
  resource (snd (raw_recv fuel size self)) = Some r2 /\
  calls_since self (snd (raw_recv fuel size self))
  = repeat (ReadRaw buffer_size) (S (List.length full)).
Proof.
  intros buffer_size Hsize Hres Hreads Hfull Hraise Hfuel.
  assert (E : raw_recv fuel size self = raw_recv_loop fuel [] self)
    by (destruct Hsize as [->|[->| ->]]; reflexivity).
  rewrite E. clear E Hsize.
  assert (Loop : forall (full : list bytes) (fuel : nat) (acc : list bytes)
                        (s : Driver R) (r : R),
             RECV_BUFFER_SIZE (attributes s) = buffer_size ->
             resource s = Some r ->
             successive_reads buffer_size (List.length full) r = (Some full, r1) ->
             Forall (fun x => buffer_size <= len x) full ->
             (List.length full < fuel)%nat ->
             fst (raw_recv_loop fuel acc s) = Raise e /\
             resource (snd (raw_recv_loop fuel acc s)) = Some r2 /\
             calls (snd (raw_recv_loop fuel acc s))
             = calls s ++ repeat (ReadRaw buffer_size) (S (List.length full))).
  { clear - Hraise. induction full as [|x0 full IH];
      intros fuel acc s r Hsize Hres Hreads Hfull Hfuel;
      (destruct fuel as [|fuel]; [cbn in Hfuel; lia|]);
      cbn [raw_recv_loop]; rewrite Hsize.
    - cbn in Hreads. injection Hreads as <-.
      unfold bind, on_resource. rewrite Hres, Hraise. cbn. auto.
    - apply successive_reads_step in Hreads.
      destruct Hreads as (x & r' & xs & Hread & Hrest & Hl).
      injection Hl as <- <-.
      rewrite (bind_return _ _ _ _ _ (on_resource_ok _ _ _ _ _ _ Hres Hread)).
      inversion Hfull as [|? ? Hx Hfull']; subst.
      assert (Hge : (len x0 <? buffer_size) = false) by (apply Z.ltb_ge; lia).
      rewrite Hge.
      destruct (IH fuel (acc ++ [x0])
                  (set_resource (Some r') (record (ReadRaw buffer_size) s)) r'
                  Hsize eq_refl Hrest Hfull' ltac:(cbn in Hfuel; lia))
        as (H1 & H2 & H3).
      split; [assumption|]. split; [assumption|].
      rewrite H3. cbn. now rewrite <- app_assoc. }
  destruct (Loop full fuel [] self r0 eq_refl Hres Hreads Hfull Hfuel)
    as (H1 & H2 & H3).
  split; [assumption|]. split; [assumption|]. now apply calls_since_app.
Qed.

Lemma successive_reads_cons (size : Z) (n : nat) (r r1 r' : R) (x : bytes)
    (xs : list bytes) :
  read_raw size r = (inr x, r1) ->
  successive_reads size n r1 = (Some xs, r') ->
  successive_reads size (S n) r = (Some (x :: xs), r').
Proof. intros H1 H2. cbn [successive_reads]. now rewrite H1, H2. Qed.

Lemma raw_recv_loop_returned (fuel : nat) :
  forall (acc : list bytes) (s s' : Driver R) (data : bytes),
    let buffer_size := RECV_BUFFER_SIZE (attributes s) in
    raw_recv_loop fuel acc s = (Return data, s') ->
    exists (r0 r' : R) (full : list bytes) (last : bytes),
      resource s = Some r0 /\
      successive_reads buffer_size (S (List.length full)) r0
      = (Some (full ++ [last]), r') /\
      Forall (fun x => buffer_size <= len x) full /\
      len last < buffer_size /\
      data = List.concat (acc ++ full ++ [last]) /\
      resource s' = Some r' /\
      calls s' = calls s ++ repeat (ReadRaw buffer_size) (S (List.length full)).
Proof.
  induction fuel as [|fuel IH]; intros acc s s' data buffer_size Hrun;
    [discriminate|].
  cbn [raw_recv_loop] in Hrun. fold buffer_size in Hrun.
  apply bind_returned in Hrun. destruct Hrun as (x & s1 & Hread & Hrun).
  apply on_resource_returned in Hread.
  destruct Hread as (r & r1 & Hres & Hread & ->).
  destruct (len x <? buffer_size) eqn:Hshort.
  - injection Hrun as <- <-. exists r, r1, [], x.
    split; [assumption|]. split; [cbn; now rewrite Hread|].
    split; [constructor|]. split; [now apply Z.ltb_lt|].
    split; [reflexivity|]. split; reflexivity.
  - apply IH in Hrun.
    destruct Hrun as (r0 & r' & full & last & Hres1 & Hreads & Hfull & Hlast
                      & Hdata & Hres' & Hcalls).
    cbn in Hres1. injection Hres1 as <-.
    exists r, r', (x :: full), last.
    split; [assumption|].
    split; [exact (successive_reads_cons _ _ _ _ _ _ _ Hread Hreads)|].
    split; [constructor; [now apply Z.ltb_ge | assumption]|].
    split; [assumption|].
    split; [now rewrite Hdata, <- app_assoc|].
    split; [assumption|].
    rewrite Hcalls. cbn. now rewrite <- app_assoc.
Qed.

(** X7.  Drain mode returns only after a short read: whenever
    [raw_recv] returns in drain mode, it has made at least one read, all
    its reads but the last filled the buffer, the last did not, and the
    result is what these reads yielded, joined in order. *)
Theorem raw_recv_drain_returned (fuel : nat) (size : option Z)
    (self self' : Driver R) (data : bytes) :
  let buffer_size := RECV_BUFFER_SIZE (attributes self) in
  size = None \/ size = Some 0 \/ size = Some (-1) ->
  raw_recv fuel size self = (Return data, self') ->
  exists (r0 r' : R) (full : list bytes) (last : bytes),
    resource self = Some r0 /\
    successive_reads buffer_size (S (List.length full)) r0
    = (Some (full ++ [last]), r') /\
    Forall (fun x => buffer_size <= len x) full /\
    len last < buffer_size /\
    data = List.concat (full ++ [last]) /\
    resource self' = Some r' /\
    calls_since self self' = repeat (ReadRaw buffer_size) (S (List.length full)).
Proof.
  intros buffer_size Hsize Hrun.
  assert (E : raw_recv fuel size self = raw_recv_loop fuel [] self)
    by (destruct Hsize as [->|[->| ->]]; reflexivity).
  rewrite E in Hrun. apply raw_recv_loop_returned in Hrun.
  destruct Hrun as (r0 & r' & full & last & H1 & H2 & H3 & H4 & H5 & H6 & H7).
  exists r0, r', full, last. repeat (split; [assumption|]).
  now apply calls_since_app.
Qed.

(** X8.  The drain loop has no bound of its own: on a session whose
    reads all fill the buffer, [raw_recv] in drain mode does not return,
    however many iterations are allowed.  [always_full] is a property of
    the session that every read of the buffer size keeps. *)
Theorem raw_recv_drain_unbounded (always_full : R -> Prop) (fuel : nat)
    (size : option Z) (self : Driver R) (r0 : R) :
  let buffer_size := RECV_BUFFER_SIZE (attributes self) in
  size = None \/ size = Some 0 \/ size = Some (-1) ->
  resource self = Some r0 ->
  always_full r0 ->
  (forall r, always_full r ->
     exists x r', read_raw buffer_size r = (inr x, r') /\
                  buffer_size <= len x /\ always_full r') ->
  fst (raw_recv fuel size self) = Diverge.
Proof.
  intros buffer_size Hsize Hres Hinv Hstep.
  assert (E : raw_recv fuel size self = raw_recv_loop fuel [] self)
    by (destruct Hsize as [->|[->| ->]]; reflexivity).
  rewrite E. clear E Hsize.
  assert (Loop : forall (fuel : nat) (acc : list bytes) (s : Driver R) (r : R),
             RECV_BUFFER_SIZE (attributes s) = buffer_size ->
             resource s = Some r -> always_full r ->
             fst (raw_recv_loop fuel acc s) = Diverge).
  { clear - Hstep. induction fuel as [|fuel IH]; intros acc s r Hsize Hres Hinv;
      [reflexivity|].
    cbn [raw_recv_loop]. rewrite Hsize.
    destruct (Hstep r Hinv) as (x & r' & Hread & Hlen & Hinv').
    rewrite (bind_return _ _ _ _ _ (on_resource_ok _ _ _ _ _ _ Hres Hread)).
    assert (Hge : (len x <? buffer_size) = false) by (apply Z.ltb_ge; lia).
    rewrite Hge. now apply (IH _ _ r'). }
  now apply (Loop fuel [] self r0).
Qed.

End DrainEdges.

(** ** More on opening and closing *)

Section LifeCycleEdges.

Context {R : Type} {visa : Resource R}.

Lemma is_open_false (self : Driver R) :
  fst (is_open self) = Return false -> is_open self = (Return false, self).
Proof.
  unfold is_open. destruct (resource self) as [r|]; [|reflexivity].
  destruct (session r); cbn; [discriminate | reflexivity].
Qed.

Lemma for_each_configure_raises (attrs : dict) :
  forall (s : Driver R) (r r' : R) (e : exn),
    resource s = Some r ->
    configure attrs r = (inl e, r') ->
    exists s' done rest,
      for_each attrs
        (fun kv => on_resource (SetAttribute (fst kv) (snd kv))
                     (set_visa_attribute (fst kv) (snd kv))) s
      = (Raise e, s') /\
      resource s' = Some r' /\
      attrs = done ++ rest /\ done <> [] /\
      calls s' = calls s
                 ++ map (fun kv => SetAttribute (fst kv) (snd kv)) done.
Proof.
  induction attrs as [|[k v] attrs IH]; intros s r r' e Hres Hconf;
    [discriminate|].
  cbn [configure] in Hconf. cbn [for_each fst snd].
  destruct (set_visa_attribute k v r) as [[e1|[]] r1] eqn:Hset.
  - injection Hconf as <- <-.
    exists (set_resource (Some r1) (record (SetAttribute k v) s)), [(k, v)], attrs.
    split.
    { apply bind_raise. unfold on_resource. now rewrite Hres, Hset. }
    split; [reflexivity|]. split; [reflexivity|]. split; [discriminate|].
    reflexivity.
  - rewrite (bind_return _ _ _ _ _ (on_resource_ok _ _ _ _ _ _ Hres Hset)).
    destruct (IH (set_resource (Some r1) (record (SetAttribute k v) s)) r1 r' e
                eq_refl Hconf) as (s' & done & rest & Hrun & Hres' & Hsplit
                                   & _ & Hcalls).
    exists s', ((k, v) :: done), rest.
    split; [assumption|]. split; [assumption|].
    split; [now rewrite Hsplit|]. split; [discriminate|].
    rewrite Hcalls. cbn. now rewrite <- app_assoc.
Qed.

(** What [initialize] does on a driver that is not open. *)
Lemma initialize_not_open (self : Driver R) (r0 r1 : R) :
  fst (is_open self) = Return false ->
  open_resource (library_path self) (resource_name self) = inr r0 ->
  configure (_init_attributes self) r0 = (inr tt, r1) ->
  fst (initialize self) = Return tt /\
  resource (snd (initialize self)) = Some r1 /\
  calls_since self (snd (initialize self))
  = [LogDebug "Opening {}"; Open (resource_name self)]
    ++ map (fun kv => SetAttribute (fst kv) (snd kv)) (_init_attributes self)
    ++ [LogDebug "The session for {} is {}"].
Proof.
  intros Hclosed Hopen Hconf.
  set (s0 := record (LogDebug "Opening {}") self).
  set (s1 := set_resource (Some r0) (record (Open (resource_name self)) s0)).
  destruct (for_each_configure (_init_attributes self) s1 r0 r1 eq_refl Hconf)
    as (s2 & Hrun & Hres2 & Hcalls2).
  assert (Hinit : initialize self
                  = (Return tt, record (LogDebug "The session for {} is {}") s2)).
  { unfold initialize, bind. rewrite (is_open_false _ Hclosed). cbn [negb].
    unfold log_debug, open_session. fold s0.
    change (library_path s0) with (library_path self).
    change (resource_name s0) with (resource_name self).
    rewrite Hopen. fold s1.
    change (_init_attributes s1) with (_init_attributes self).
    rewrite Hrun. reflexivity. }
  rewrite Hinit. cbn [fst snd]. split; [reflexivity|].
  split; [exact Hres2|].
  apply calls_since_app. cbn. rewrite Hcalls2. cbn.
  repeat (rewrite <- app_assoc; cbn). reflexivity.
Qed.

(** X9.  [initialize] is guarded by [is_open] alone.  On a driver that
    is not open, one never opened as well as one closed by [finalize],
    it opens the resource, which replaces the one the driver had, and
    then sets every entry of [_init_attributes] once, in the order of
    the dictionary, before it returns. *)
Theorem initialize_opens_then_configures (self : Driver R) (r0 r1 : R) :
  fst (is_open self) = Return false ->
  open_resource (library_path self) (resource_name self) = inr r0 ->
  configure (_init_attributes self) r0 = (inr tt, r1) ->
  fst (initialize self) = Return tt /\
  resource (snd (initialize self)) = Some r1 /\
  calls_since self (snd (initialize self))
  = [LogDebug "Opening {}"; Open (resource_name self)]
    ++ map (fun kv => SetAttribute (fst kv) (snd kv)) (_init_attributes self)
    ++ [LogDebug "The session for {} is {}"].
Proof. exact (initialize_not_open self r0 r1). Qed.

(** X10.  When the resource cannot be opened, [initialize] lets the
    exception through right after the attempt: no attribute is set, the
    driver keeps the resource it had and is still not open. *)
Theorem initialize_open_fails (self : Driver R) (e : exn) :
  fst (is_open self) = Return false ->
  open_resource (library_path self) (resource_name self) = inl e ->
  fst (initialize self) = Raise e /\
  resource (snd (initialize self)) = resource self /\
  fst (is_open (snd (initialize self))) = Return false /\
  calls_since self (snd (initialize self))
  = [LogDebug "Opening {}"; Open (resource_name self)].
Proof.
  intros Hclosed Hopen.
  assert (Hinit : initialize self
                  = (Raise e, record (Open (resource_name self))
                                (record (LogDebug "Opening {}") self))).
  { unfold initialize, bind. rewrite (is_open_false _ Hclosed). cbn [negb].
    unfold log_debug, open_session.
    change (library_path (record (LogDebug "Opening {}") self))
      with (library_path self).
    change (resource_name (record (LogDebug "Opening {}") self))
      with (resource_name self).
    now rewrite Hopen. }
  rewrite Hinit. cbn [fst snd]. split; [reflexivity|]. split; [reflexivity|].
  split.
  { unfold is_open in *. cbn. destruct (resource self) as [r|]; [|reflexivity].
    destruct (session r); [discriminate | reflexivity]. }
  apply calls_since_app. cbn. now rewrite <- app_assoc.
Qed.

(** X11.  When setting an attribute fails, [initialize] raises with the
    session already open and the attributes after the failing one not
    set.  The driver then counts as open, so that calling [initialize]
    again sets none of them: it only writes its diagnostic. *)
Theorem initialize_partial_configuration (self : Driver R) (r0 r1 : R)
    (e : exn) (h : Z) :
  fst (is_open self) = Return false ->
  open_resource (library_path self) (resource_name self) = inr r0 ->
  configure (_init_attributes self) r0 = (inl e, r1) ->
  session r1 = Some h ->
  let failed := snd (initialize self) in
  fst (initialize self) = Raise e /\
  resource failed = Some r1 /\
  fst (is_open failed) = Return true /\
  (exists done rest,
     _init_attributes self = done ++ rest /\ done <> [] /\
     calls_since self failed
     = [LogDebug "Opening {}"; Open (resource_name self)]
       ++ map (fun kv => SetAttribute (fst kv) (snd kv)) done) /\
  fst (initialize failed) = Return tt /\
  calls_since failed (snd (initialize failed))
  = [LogDebug "{} is already open"].
Proof.
  intros Hclosed Hopen Hconf Hlive.
  set (s0 := record (LogDebug "Opening {}") self).
  set (s1 := set_resource (Some r0) (record (Open (resource_name self)) s0)).
  destruct (for_each_configure_raises (_init_attributes self) s1 r0 r1 e
              eq_refl Hconf)
    as (s2 & done & rest & Hrun & Hres2 & Hsplit & Hdone & Hcalls2).
  assert (Hinit : initialize self = (Raise e, s2)).
  { unfold initialize, bind. rewrite (is_open_false _ Hclosed). cbn [negb].
    unfold log_debug, open_session. fold s0.
    change (library_path s0) with (library_path self).
    change (resource_name s0) with (resource_name self).
    rewrite Hopen. fold s1.
    change (_init_attributes s1) with (_init_attributes self).
    rewrite Hrun. reflexivity. }
  cbv zeta. rewrite Hinit. cbn [fst snd].
  assert (Hagain : initialize s2
                   = (Return tt, record (LogDebug "{} is already open") s2)).
  { unfold initialize, bind, is_open, log_debug. rewrite Hres2, Hlive.
    reflexivity. }
  rewrite Hagain. cbn [fst snd].
  split; [reflexivity|]. split; [assumption|].
  split; [unfold is_open; now rewrite Hres2, Hlive|].
  split.
  { exists done, rest. split; [assumption|]. split; [assumption|].
    apply calls_since_app. rewrite Hcalls2. cbn.
    repeat (rewrite <- app_assoc; cbn). reflexivity. }
  split; [reflexivity|]. now apply calls_since_app.
Qed.

(** X12.  Receiving and closing are not guarded by [is_open]: on a
    driver whose resource has no live session, after [finalize] for
    instance, [raw_recv] still issues its read on that resource and
    [finalize] still calls [close] on it. *)
Theorem closed_driver_still_used (fuel : nat) (n : Z) (self : Driver R)
    (r r' : R) (x : bytes) :
  resource self = Some r ->
  session r = None ->
  n <> 0 -> n <> -1 ->
  read_raw n r = (inr x, r') ->
  fst (is_open self) = Return false /\
  fst (raw_recv fuel (Some n) self) = Return x /\
  calls_since self (snd (raw_recv fuel (Some n) self)) = [ReadRaw n] /\
  calls_since self (snd (finalize self))
  = [LogDebug "Closing port {}"; Close].
Proof.
  intros Hres Hclosed H0 H1 Hread.
  split; [unfold is_open; now rewrite Hres, Hclosed|].
  rewrite (raw_recv_exact fuel n self r r' x H0 H1 Hres Hread). cbn [fst snd].
  split; [reflexivity|]. split; [now apply calls_since_app|].
  apply calls_since_app.
  unfold finalize, bind, log_debug, on_resource. cbn. rewrite Hres.
  destruct (close r) as [[e|[]] r2]; cbn; now rewrite <- app_assoc.
Qed.

End LifeCycleEdges.

(** ** More on construction *)

Section ConstructionEdges.

Context {R : Type} {visa : Resource R}.

Lemma prefix_of_exclusive (name : string) (v v' : Variant) :
  startswith name (prefix_of v) = true ->
  startswith name (prefix_of v') = true -> v = v'.
Proof.
  intros H H'.
  destruct v; destruct (startswith_head _ _ _ H) as [s' ->];
    destruct v'; try reflexivity; discriminate H'.
Qed.

(** X13.  The class of the driver that the dispatcher returns tells the
    prefix of the canonical name, and no other of the four prefixes
    fits that name: the order of the tests has no influence.  The
    driver returned has no resource, is not open, and nothing was
    called through it: dispatching does not open the session. *)
Theorem VisaDriver_new_returns_unopened (rn : string)
    (args : list value) (kwargs : dict) (d : Driver R) :
  VisaDriver_new rn args kwargs = inr d ->
  (exists name,
     resource_info (get kwargs (VStr "library_path") VNone) rn = inr name /\
     startswith name (prefix_of (variant d)) = true /\
     forall v, startswith name (prefix_of v) = true -> v = variant d) /\
  resource d = None /\
  fst (is_open d) = Return false /\
  calls d = [LogDebug "Created Instrument {}"] /\
  resource_name d = rn /\
  library_path d = get kwargs (VStr "library_path") (VStr "").
Proof.
  unfold VisaDriver_new, and_then.
  destruct (resource_info _ rn) as [e|name]; [discriminate|].
  assert (Shape : forall v,
             startswith name (prefix_of v) = true ->
             (exists kw, d = set_init_attributes kw
                               (MessageVisaDriver_init v
                                  MessageVisaDriver_attributes rn args kwargs)) ->
             (exists name0,
                @inr exn string name = inr name0 /\
                startswith name0 (prefix_of (variant d)) = true /\
                forall v0, startswith name0 (prefix_of v0) = true ->
                           v0 = variant d) /\
             resource d = None /\
             fst (is_open d) = Return false /\
             calls d = [LogDebug "Created Instrument {}"] /\
             resource_name d = rn /\
             library_path d = get kwargs (VStr "library_path") (VStr "")).
  { intros v Hv [kw ->]. cbn. split; [|auto 6].
    exists name. split; [reflexivity|]. split; [assumption|].
    intros v0 Hv0. exact (prefix_of_exclusive name v0 v Hv0 Hv). }
  destruct (startswith name "GPIB") eqn:H1.
  { intros H. injection H as <-. apply (Shape GPIB H1). now exists []. }
  destruct (startswith name "ASRL") eqn:H2.
  { intros H. unfold SerialVisaDriver in H.
    rewrite SerialVisaDriver_init_unbound in H. discriminate H. }
  destruct (startswith name "TCPIP") eqn:H3.
  { intros H. injection H as <-. apply (Shape TCP H3). now exists []. }
  destruct (startswith name "USB") eqn:H4; [|discriminate].
  intros H. injection H as <-. apply (Shape USB H4). now exists [].
Qed.

End ConstructionEdges.

(** ** The further properties on examples *)


Lemma read_block_only_reads_in_scope_witness :
  exists sizes,
    calls_since (listening [b "#3abc"])
      (snd (read_block 0 (listening [b "#3abc"])))
    = IgnoreEnter VI_SUCCESS_MAX_CNT :: map ReadRaw sizes
      ++ match fst (read_block 0 (listening [b "#3abc"])) with
         | Diverge => []
         | _ => [IgnoreExit VI_SUCCESS_MAX_CNT]
         end.
Proof.
  exact (read_block_only_reads_in_scope (visa := Wire_resource) 0
           (listening [b "#3abc"]) (wire_open [b "#3abc"]) eq_refl).
Defined.

Lemma read_block_bad_digit_count_witness :
  digit_of "A"%byte = None /\
  fst (read_block 0 (listening [b "#A5hello"]))
  = Raise (ValueError "invalid literal for int() with base 10") /\
  calls_since (listening [b "#A5hello"])
    (snd (read_block 0 (listening [b "#A5hello"])))
  = [IgnoreEnter VI_SUCCESS_MAX_CNT; ReadRaw 1; ReadRaw 1;
     IgnoreExit VI_SUCCESS_MAX_CNT].
Proof.
  split; [reflexivity|].
  destruct (read_block_bad_digit_count (visa := Wire_resource) 0
              (listening [b "#A5hello"]) (wire_open [b "#A5hello"])
              (snd (wire_read 1 (ignore_enter VI_SUCCESS_MAX_CNT
                                   (wire_open [b "#A5hello"]))))
              (snd (wire_read 1
                      (snd (wire_read 1 (ignore_enter VI_SUCCESS_MAX_CNT
                                           (wire_open [b "#A5hello"]))))))
              [ "A"%byte ])
    as (Hout & _ & Hcalls);
    [reflexivity | reflexivity | reflexivity
     | right; exists "A"%byte; split; reflexivity | ].
  split; [exact Hout | exact Hcalls].
Defined.


Lemma unopened_driver_fails_witness :
  resource unopened = None /\
  read_block 0 unopened = (Raise AttributeError, unopened) /\
  raw_recv 1 (Some 10) unopened = (Raise AttributeError, unopened).
Proof.
  destruct (unopened_driver_fails (visa := Wire_resource) 0 (Some 10) unopened
              eq_refl) as (Hrecv & _ & Hblock & _).
  split; [reflexivity|]. split; [exact Hblock | exact Hrecv].
Defined.

Lemma raw_recv_drain_raises_witness :
  let answers := [inr (repeat "a"%byte 256); inl (VisaIOError (-1073807339))] in
  fst (raw_recv 2 None (scripted answers)) = Raise (VisaIOError (-1073807339)) /\
  calls_since (scripted answers) (snd (raw_recv 2 None (scripted answers)))
  = [ReadRaw 256; ReadRaw 256].
Proof.
  cbv zeta.
  destruct (raw_recv_drain_raises (visa := Scripted_resource) 2 None
              (scripted [inr (repeat "a"%byte 256);
                         inl (VisaIOError (-1073807339))])
              {| replies := [inr (repeat "a"%byte 256);
                             inl (VisaIOError (-1073807339))];
                 live := true |}
              {| replies := [inl (VisaIOError (-1073807339))]; live := true |}
              {| replies := []; live := true |}
              [repeat "a"%byte 256] (VisaIOError (-1073807339)))
    as (Hout & _ & Hcalls).
  - left. reflexivity.
  - reflexivity.
  - reflexivity.
  - constructor; [vm_compute; discriminate | constructor].
  - reflexivity.
  - simpl. lia.
  - split; [exact Hout | exact Hcalls].
Defined.

Lemma raw_recv_drain_returned_witness :
  exists (r0 r' : Wire) (full : list bytes) (last : bytes),
    resource (listening [b "0123456789"]) = Some r0 /\
    successive_reads 256 (S (List.length full)) r0 = (Some (full ++ [last]), r') /\
    Forall (fun x => 256 <= len x) full /\
    len last < 256 /\
    b "0123456789" = List.concat (full ++ [last]) /\
    resource (snd (raw_recv 1 (Some 0) (listening [b "0123456789"]))) = Some r' /\
    calls_since (listening [b "0123456789"])
      (snd (raw_recv 1 (Some 0) (listening [b "0123456789"])))
    = repeat (ReadRaw 256) (S (List.length full)).
Proof.
  apply (raw_recv_drain_returned (visa := Wire_resource) 1 (Some 0)
           (listening [b "0123456789"])
           (snd (raw_recv 1 (Some 0) (listening [b "0123456789"])))
           (b "0123456789")).
  - right. left. reflexivity.
  - reflexivity.
Defined.

Lemma raw_recv_drain_unbounded_witness :
  fst (raw_recv 1000 None (streaming [] "x"%byte)) = Diverge.
Proof.
  apply (raw_recv_drain_unbounded (visa := Wire_resource)
           (fun w => incoming w = [] /\ idle w = Some "x"%byte)
           1000 None (streaming [] "x"%byte) (wire_streaming [] "x"%byte)).
  - left. reflexivity.
  - reflexivity.
  - split; reflexivity.
  - intros r [Hin Hidle]. exists (repeat "x"%byte 256), r.
    split; [|split; [vm_compute; discriminate | split; assumption]].
    cbn. unfold wire_read. rewrite Hin, Hidle. reflexivity.
Defined.

Lemma initialize_opens_then_configures_witness :
  let closed := set_resource (Some (set_handle None (wire_open []))) unopened in
  fst (is_open closed) = Return false /\
  fst (initialize closed) = Return tt /\
  fst (is_open (snd (initialize closed))) = Return true /\
  calls_since closed (snd (initialize closed))
  = [LogDebug "Opening {}"; Open "ASRL1::INSTR";
     SetAttribute (VStr "ASRL_BAUD") (VInt 9600);
     LogDebug "The session for {} is {}"].
Proof.
  cbv zeta.
  destruct (initialize_opens_then_configures (visa := Wire_resource)
              (set_resource (Some (set_handle None (wire_open []))) unopened)
              (wire_open [])
              (set_settings [(VStr "ASRL_BAUD", VInt 9600)] (wire_open [])))
    as (Hout & _ & Hcalls); [reflexivity | reflexivity | reflexivity |].
  split; [reflexivity|]. split; [exact Hout|]. split; [reflexivity|].
  exact Hcalls.
Defined.

Lemma initialize_open_fails_witness :
  fst (initialize (configured "" [(VStr "ASRL_BAUD", VInt 9600)]))
  = Raise (VisaIOError (-1073807343)) /\
  resource (snd (initialize (configured "" [(VStr "ASRL_BAUD", VInt 9600)])))
  = None /\
  calls_since (configured "" [(VStr "ASRL_BAUD", VInt 9600)])
    (snd (initialize (configured "" [(VStr "ASRL_BAUD", VInt 9600)])))
  = [LogDebug "Opening {}"; Open ""].
Proof.
  destruct (initialize_open_fails (visa := Scripted_resource)
              (configured "" [(VStr "ASRL_BAUD", VInt 9600)])
              (VisaIOError (-1073807343)))
    as (Hout & Hres & _ & Hcalls); [reflexivity | reflexivity |].
  split; [exact Hout|]. split; [exact Hres | exact Hcalls].
Defined.

Lemma initialize_partial_configuration_witness :
  let attrs := [(VStr "A", VInt 1); (VStr "B", VNone); (VStr "C", VInt 3)] in
  let failed := snd (initialize (configured "GPIB0::12::INSTR" attrs)) in
  fst (initialize (configured "GPIB0::12::INSTR" attrs))
  = Raise (VisaIOError (-1073807331)) /\
  fst (is_open failed) = Return true /\
  calls_since (configured "GPIB0::12::INSTR" attrs) failed
  = [LogDebug "Opening {}"; Open "GPIB0::12::INSTR";
     SetAttribute (VStr "A") (VInt 1); SetAttribute (VStr "B") VNone] /\
  calls_since failed (snd (initialize failed)) = [LogDebug "{} is already open"].
Proof.
  cbv zeta.
  destruct (initialize_partial_configuration (visa := Scripted_resource)
              (configured "GPIB0::12::INSTR"
                 [(VStr "A", VInt 1); (VStr "B", VNone); (VStr "C", VInt 3)])
              {| replies := []; live := true |}
              {| replies := []; live := true |}
              (VisaIOError (-1073807331)) 1)
    as (Hout & _ & Hopen & _ & _ & Hagain);
    [reflexivity | reflexivity | reflexivity | reflexivity |].
  split; [exact Hout|]. split; [exact Hopen|]. split; [reflexivity|].
  exact Hagain.
Defined.

Lemma closed_driver_still_used_witness :
  let closed :=
    set_resource (Some (set_handle None (wire_open [b "late"]))) unopened in
  fst (is_open closed) = Return false /\
  fst (raw_recv 0 (Some 4) closed) = Return (b "late") /\
  calls_since closed (snd (finalize closed))
  = [LogDebug "Closing port {}"; Close].
Proof.
  cbv zeta.
  destruct (closed_driver_still_used (visa := Wire_resource) 0 4
              (set_resource (Some (set_handle None (wire_open [b "late"])))
                 unopened)
              (set_handle None (wire_open [b "late"]))
              (set_handle None (wire_open []))
              (b "late"))
    as (Hopen & Hout & _ & Hclose);
    [reflexivity | reflexivity | lia | lia | reflexivity |].
  split; [exact Hopen|]. split; [exact Hout | exact Hclose].
Defined.

Lemma VisaDriver_new_returns_unopened_witness :
  exists d : Driver Wire,
    VisaDriver_new "TCPIP0::192.168.0.2::INSTR" [] [] = inr d /\
    variant d = TCP /\ resource d = None /\
    fst (is_open d) = Return false /\
    calls d = [LogDebug "Created Instrument {}"].
Proof.
  eexists. split; [reflexivity|].
  destruct (VisaDriver_new_returns_unopened (visa := Wire_resource)
              "TCPIP0::192.168.0.2::INSTR" [] [] _ eq_refl)
    as (_ & Hres & Hopen & Hcalls & _).
  split; [reflexivity|]. split; [exact Hres|]. split; [exact Hopen|].
  exact Hcalls.
Defined.
